(** * NGLView helpers of the T018 automated CADD pipeline

    A shallow embedding of
    [teachopencadd/talktorials/T018_automated_cadd_pipeline/utils/helpers/NGLView.py]
    and the properties of its four entry points [protein], [binding_site],
    [docking] and [interactions].

    The Python code is glue over two third-party front ends (the nglview
    widget and the ipywidgets selection list).  Their objects are modelled
    as records held in a store, so that object identity, in-place mutation
    and the order of API calls are all visible; every Python statement that
    can raise is a computation in a state-and-exception monad. *)

From Stdlib Require Import ZArith String List Ascii.
From Stdlib Require Import Floats.PrimFloat.
From stdpp Require Import base option list strings pretty.

Set Warnings "-inexact-float".
Local Open Scope string_scope.
Local Open Scope list_scope.
Local Open Scope Z_scope.

(** ** Python values and exceptions *)

(** The values a change notification carries in its ["new"] and ["old"]
    entries: [None], an [int] (the option values of the selection list) or a
    [str]. *)
Inductive pyval :=
| PyNone
| PyInt (z : Z)
| PyStr (s : string).

#[global] Instance pyval_eq_dec : EqDecision pyval.
Proof. solve_decision. Defined.

(** Python's [!=] on these values. *)
Definition py_ne (a b : pyval) : bool := negb (bool_decide (a = b)).

(** The [str()] protocol. *)
Class Str (A : Type) := str : A -> string.
#[global] Instance Str_string : Str string := fun s => s.
#[global] Instance Str_Z : Str Z := fun z => pretty z.
#[global] Instance Str_pyval : Str pyval := fun v =>
  match v with
  | PyNone => "None"
  | PyInt z => pretty z
  | PyStr s => s
  end.

(** The exceptions that can leave the module.  [LibraryError] stands for
    whatever an underlying library raises on a missing or malformed file; its
    tag keeps the identity of the error. *)
Inductive exn :=
| NameError (name : string)
| KeyError (key : string)
| IndexError
| TypeError
| ValueError
| AttributeError (attr : string)
| LibraryError (tag : string).

#[global] Instance exn_eq_dec : EqDecision exn.
Proof. solve_decision. Defined.

Inductive outcome (A : Type) :=
| Ok (a : A)
| Raise (e : exn).
Arguments Ok {A} a.
Arguments Raise {A} e.

(** [l[v]] for a Python list, negative indices included. *)
Definition py_index {A} (l : list A) (v : pyval) : outcome A :=
  match v with
  | PyInt i =>
      let n := Z.of_nat (length l) in
      let j := if i <? 0 then i + n else i in
      if (0 <=? j) && (j <? n) then
        match l !! Z.to_nat j with
        | Some x => Ok x
        | None => Raise IndexError
        end
      else Raise IndexError
  | _ => Raise TypeError
  end.

(** [enumerate(l, start)]. *)
Fixpoint enumerate {A} (l : list A) (start : Z) : list (Z * A) :=
  match l with
  | [] => []
  | x :: l' => (start, x) :: enumerate l' (start + 1)
  end.

(** [list(range(1, n + 1))] as component indices. *)
Definition range1 (n : nat) : list nat := seq 1 n.

(** ** The viewer widget *)

(** A table cell of an interaction record, handed through to the viewer
    unchanged: a string, an integer, an object known only by its [str()]
    rendering (coordinate tuples, floats), or the filler of a short row. *)
Inductive cell :=
| CStr (s : string)
| CInt (z : Z)
| CObj (rendering : string)
| CNone.

#[global] Instance cell_eq_dec : EqDecision cell.
Proof. solve_decision. Defined.

#[global] Instance Str_cell : Str cell := fun c =>
  match c with
  | CStr s => s
  | CInt z => pretty z
  | CObj r => r
  | CNone => "None"
  end.

(** Where a component's structure comes from. *)
Inductive Source :=
| FromPdbId (code : string)
| FromHandle (path : string)
| FromPath (path : string).

Record Component := {
  source : Source;
  ext : option string;
  visible : bool
}.

(** The calls made on a viewer, with their arguments as the source passes
    them.  Component-level calls carry the index of their component. *)
Inductive Call :=
| AddComponent (src : Source) (extension : option string)
    (default_representation : option bool)
| AddRepresentation (comp : option nat) (repr_type : string) (selection : option string)
| Center (selection : option string)
| RenderImage (trim : bool) (factor : Z)
| DisplayImage
| DownloadImage (filename : string)
| AddLabel (comp : nat) (labelText : list string) (labelType sele : string)
    (showBackground : bool) (backgroundColor : string)
| SetVisibility (comp : nat) (shown : bool)
| ComponentCenter (comp : nat) (duration : Z)
| ExecuteJs (code : string)
| AddCylinder (position1 position2 : cell) (color radius : list float) (name : string)
| AddBallAndStick (comp : nat) (sele colorScheme : string) (aspectRatio : float)
| Close.

Record NGLWidget := {
  kwargs : list (string * string);
  components : list Component;
  calls : list Call;
  closed : bool
}.

#[global] Instance NGLWidget_inhabited : Inhabited NGLWidget :=
  populate {| kwargs := []; components := []; calls := []; closed := false |}.

Definition log_call (c : Call) (v : NGLWidget) : NGLWidget :=
  {| kwargs := kwargs v; components := components v;
     calls := calls v ++ [c]; closed := closed v |}.

Definition set_components (cs : list Component) (v : NGLWidget) : NGLWidget :=
  {| kwargs := kwargs v; components := cs; calls := calls v; closed := closed v |}.

Definition set_closed (v : NGLWidget) : NGLWidget :=
  {| kwargs := kwargs v; components := components v; calls := calls v; closed := true |}.

Definition set_visible (b : bool) (c : Component) : Component :=
  {| source := source c; ext := ext c; visible := b |}.

(** ** The selection list and the layout *)

(** A change notification: the dictionary with keys ["name"], ["new"] and
    ["old"] that an observer receives. *)
Record Change := {
  name : string;
  new : pyval;
  old : pyval
}.

(** The interaction data of one pose: interaction type to table, in the
    order of the dictionary.  A table is a list of tuples, the first of which
    holds the column labels. *)
Definition plip_dict : Type := list (string * list (list cell)).

(** The two observers of the module, each with the variables its closure
    captures. *)
Inductive Observer :=
| DockingObserver (viewer : nat) (list_docking_poses_filepaths : list string)
| InteractionsObserver (app : nat)
    (protein_filepath protein_file_extension : string)
    (list_docking_poses_filepaths : list string)
    (docking_poses_file_extension : string)
    (list_docking_poses_affinities : list string)
    (list_docking_poses_plip_dicts : list plip_dict).

Record Select := {
  options : list (string * Z);
  description : string;
  rows : Z;
  flex : string;
  width : string;
  observers : list Observer
}.

Definition add_observer (o : Observer) (s : Select) : Select :=
  {| options := options s; description := description s; rows := rows s;
     flex := flex s; width := width s; observers := observers s ++ [o] |}.

Record AppLayout := {
  left_sidebar : Select;
  center : option nat;
  pane_widths : list Z;
  layout_height : option string
}.

#[global] Instance AppLayout_inhabited : Inhabited AppLayout :=
  populate {| left_sidebar := {| options := []; description := ""; rows := 0;
                                 flex := ""; width := ""; observers := [] |};
              center := None; pane_widths := []; layout_height := None |}.

Definition set_center (c : option nat) (a : AppLayout) : AppLayout :=
  {| left_sidebar := left_sidebar a; center := c;
     pane_widths := pane_widths a; layout_height := layout_height a |}.

Definition set_left_sidebar (s : Select) (a : AppLayout) : AppLayout :=
  {| left_sidebar := s; center := center a;
     pane_widths := pane_widths a; layout_height := layout_height a |}.

(** ** The world *)

(** Effects outside the widgets. *)
Inductive Event :=
| Print (line : string)
| OpenFile (path mode : string)
| CloseFile (path : string)
| Sleep (seconds : Z)
| Display (layout : nat)
| Imshow (title : string) (color : list float)
| PltShow.

(** Widgets and layouts are objects: they live in a store and are referred
    to by their position in it, which is their identity.  Objects are never
    removed from the store. *)
Record World := {
  widgets : list NGLWidget;
  layouts : list AppLayout;
  events : list Event
}.

Definition set_widgets (ws : list NGLWidget) (w : World) : World :=
  {| widgets := ws; layouts := layouts w; events := events w |}.
Definition set_layouts (ls : list AppLayout) (w : World) : World :=
  {| widgets := widgets w; layouts := ls; events := events w |}.
Definition log_event (e : Event) (w : World) : World :=
  {| widgets := widgets w; layouts := layouts w; events := events w ++ [e] |}.

(** What the environment does with a path or an identifier: the error, if
    any, that [open] raises on a path, that the viewer library raises when it
    loads the content of a path, and that it raises when it fetches a
    structure by identifier. *)
Record Env := {
  open_error : string -> option exn;
  load_error : string -> option exn;
  fetch_error : string -> option exn
}.

(** ** Computations *)

Definition M (A : Type) : Type := World -> outcome A * World.

Definition ret {A} (a : A) : M A := fun w => (Ok a, w).
Definition raise {A} (e : exn) : M A := fun w => (Raise e, w).
Definition bind {A B} (m : M A) (k : A -> M B) : M B :=
  fun w => match m w with
           | (Ok a, w') => k a w'
           | (Raise e, w') => (Raise e, w')
           end.
Definition lift {A} (o : outcome A) : M A := fun w => (o, w).
Definition emit (e : Event) : M unit := fun w => (Ok tt, log_event e w).

Notation "'do' x <- m ; k" := (bind m (fun x => k))
  (at level 10, x name, m at level 100, k at level 200).

(** Run a step on the widget [v], in place. *)
Definition on_widget {A} (v : nat) (f : NGLWidget -> outcome A * NGLWidget) : M A :=
  fun w => let '(r, wd) := f (widgets w !!! v) in
           (r, set_widgets (<[v := wd]> (widgets w)) w).

Definition call (v : nat) (c : Call) : M unit :=
  on_widget v (fun wd => (Ok tt, log_call c wd)).

Definition read_widget (v : nat) : M NGLWidget :=
  fun w => (Ok (widgets w !!! v), w).

Definition new_layout (a : AppLayout) : M nat :=
  fun w => (Ok (length (layouts w)), set_layouts (layouts w ++ [a]) w).

Definition read_layout (a : nat) : M AppLayout :=
  fun w => (Ok (layouts w !!! a), w).

Definition on_layout (a : nat) (f : AppLayout -> AppLayout) : M unit :=
  fun w => (Ok tt, set_layouts (<[a := f (layouts w !!! a)]> (layouts w)) w).

(** [selector.observe(handler)], for the selector shown in layout [a]. *)
Definition observe (a : nat) (o : Observer) : M unit :=
  on_layout a (fun l => set_left_sidebar (add_observer o (left_sidebar l)) l).

(** [for x in l: body x]. *)
Fixpoint for_each {A} (l : list A) (body : A -> M unit) : M unit :=
  match l with
  | [] => ret tt
  | x :: l' => do _ <- body x; for_each l' body
  end.

(** ** Name resolution *)

(** What a name of the module is bound to.  [ThisModule] is the module
    [NGLView] itself, the one object here with an attribute [protein]. *)
Inductive object :=
| Imported (qualified_name : string)
| Defined (function_name : string)
| Builtin (name : string)
| ThisModule.

(** The global names of the module, from its [import] and [def]
    statements (lines 2-18, 25, 62, 87, 190). *)
Definition module_globals : list (string * object) :=
  [ ("time", Imported "time");
    ("nv", Imported "nglview");
    ("AppLayout", Imported "ipywidgets.AppLayout");
    ("Layout", Imported "ipywidgets.Layout");
    ("Select", Imported "ipywidgets.Select");
    ("Button", Imported "ipywidgets.Button");
    ("mpl", Imported "matplotlib");
    ("plt", Imported "matplotlib.pyplot");
    ("colors", Imported "matplotlib.colors");
    ("np", Imported "numpy");
    ("pd", Imported "pandas");
    ("protein", Defined "protein");
    ("binding_site", Defined "binding_site");
    ("docking", Defined "docking");
    ("interactions", Defined "interactions") ].

(** The built-in names the module refers to; [display] is the one the
    notebook shell adds. *)
Definition builtins : list string :=
  [ "open"; "print"; "dict"; "list"; "map"; "str"; "zip"; "enumerate";
    "len"; "range"; "getattr"; "display" ].

Fixpoint assoc {A} (k : string) (l : list (string * A)) : option A :=
  match l with
  | [] => None
  | (k', a) :: l' => if bool_decide (k = k') then Some a else assoc k l'
  end.

(** A global name is looked up in the module, then among the built-ins. *)
Definition load_name (name : string) : M object :=
  match assoc name module_globals with
  | Some o => ret o
  | None =>
      if bool_decide (name ∈ builtins) then ret (Builtin name)
      else raise (NameError name)
  end.

Section Program.
Context (env : Env).

(** ** The viewer library *)

Definition new_widget (args : list (string * string)) : M nat :=
  fun w => (Ok (length (widgets w)),
            set_widgets (widgets w ++
              [{| kwargs := args; components := []; calls := []; closed := false |}]) w).

(** The error the library raises when it loads from [src]: a path is
    opened and then parsed, a handle is parsed, an identifier is fetched. *)
Definition source_error (src : Source) : option exn :=
  match src with
  | FromPdbId code => fetch_error env code
  | FromHandle path => load_error env path
  | FromPath path =>
      match open_error env path with
      | Some e => Some e
      | None => load_error env path
      end
  end.

(** [viewer.add_component(src, ext=..., default_representation=...)]: the
    new component is appended, visible, and its index returned. *)
Definition add_component (v : nat) (src : Source) (extension : option string)
    (default_representation : option bool) : M nat :=
  match source_error src with
  | Some e => raise e
  | None =>
      on_widget v (fun wd =>
        (Ok (length (components wd)),
         log_call (AddComponent src extension default_representation)
           (set_components
              (components wd ++
                 [{| source := src; ext := extension; visible := true |}]) wd)))
  end.

(** [nv.show_pdbid(code, height=...)] and [nv.show_file(f, ext=...,
    height=..., default_representation=...)]: a new widget holding the
    structure as component 0. *)
Definition show_structure (src : Source) (extension : option string)
    (args : list (string * string)) (default_representation : option bool) : M nat :=
  match source_error src with
  | Some e => raise e
  | None =>
      do v <- new_widget args;
      do _ <- add_component v src extension default_representation;
      ret v
  end.

Definition show_pdbid (code height : string) : M nat :=
  show_structure (FromPdbId code) None [("height", height)] None.

Definition show_file (f ext height : string) (default_representation : bool) : M nat :=
  show_structure (FromHandle f) (Some ext) [("height", height)]
    (Some default_representation).

(** [with open(path, mode) as f: body f]: the file is closed when the body
    is left, by return or by exception. *)
Definition with_open {A} (path mode : string) (body : string -> M A) : M A :=
  do _ <- emit (OpenFile path mode);
  match open_error env path with
  | Some e => raise e
  | None => fun w => let '(r, w') := body path w in (r, log_event (CloseFile path) w')
  end.

(** ** [protein] (lines 25-59) *)

Definition protein (input_type input_value : string)
    (output_image_filename : option string) : M nat :=
  do viewer <-
    (if bool_decide (input_type = "pdb_code") then
       show_pdbid input_value "600px"
     else
       with_open input_value "r" (fun f =>
         do viewer <- show_file f input_type "600px" false;
         do _ <- call viewer (AddRepresentation None "cartoon" (Some "protein"));
         ret viewer));
  do _ <- call viewer (AddRepresentation None "ball+stick" (Some "hetero and not water"));
  do _ <- call viewer (Center (Some "protein"));
  do _ <- match output_image_filename with
          | Some filename =>
              do _ <- call viewer (RenderImage true 2);
              do _ <- call viewer DisplayImage;
              call viewer (DownloadImage filename)
          | None => ret tt
          end;
  ret viewer.

(** ** [binding_site] (lines 62-84) *)

(** [o.protein(input_type, input_value)]. *)
Definition call_protein_of (o : object) (input_type input_value : string) : M nat :=
  match o with
  | ThisModule => protein input_type input_value None
  | _ => raise (AttributeError "protein")
  end.

Definition binding_site (protein_input_type protein_input_value ccp4_filepath : string)
    : M nat :=
  do NGLView <- load_name "NGLView";
  do viewer <- call_protein_of NGLView protein_input_type protein_input_value;
  do _ <- with_open ccp4_filepath "rb" (fun f =>
            add_component viewer (FromHandle f) (Some "ccp4") None);
  do _ <- call viewer (Center None);
  ret viewer.

(** ** [docking] (lines 87-187) *)

Definition nl : string := String (ascii_of_nat 10) EmptyString.
Definition dq : string := String (ascii_of_nat 34) EmptyString.

(** [_RESIDUES_AROUND.format(index=..., radius=...)] (lines 124-132, 181),
    with the two fields already rendered by [str]. *)
Definition RESIDUES_AROUND (index radius : string) : string :=
  nl +:+ "    var protein = this.stage.compList[0];" +:+
  nl +:+ "    var ligand_center = this.stage.compList[" +:+ index +:+
         "].structure.atomCenter();" +:+
  nl +:+ "    var around = protein.structure.getAtomSetWithinPoint(ligand_center, "
         +:+ radius +:+ ");" +:+
  nl +:+ "    var around_complete = protein.structure.getAtomSetWithinGroup(around);" +:+
  nl +:+ "    var last_repr = protein.reprList[protein.reprList.length-1];" +:+
  nl +:+ "    protein.removeRepresentation(last_repr);" +:+
  nl +:+ "    protein.addRepresentation(" +:+ dq +:+ "licorice" +:+ dq +:+
         ", {sele: around_complete.toSeleString()});" +:+
  nl +:+ "    ".

(** [ngl_component.add_label(labelText=..., **label_kwargs)]. *)
Definition add_label (v component : nat) (labelText : list string) : M unit :=
  call v (AddLabel component labelText "text" "@0" true "black").

(** [list(map(lambda x: str(x) + " kcal/mol", affinities))]. *)
Definition kcal_per_mol {A} `{Str A} (affinities : list A) : list string :=
  (fun x => str x +:+ " kcal/mol") <$> affinities.

(** The selection list of the docking view (lines 158-163). *)
Definition docking_selector (list_docking_poses_labels list_docking_poses_filepaths
    : list string) : Select :=
  {| options := (fun '(i, label) => (label, i)) <$> enumerate list_docking_poses_labels 1;
     description := "";
     rows := if Z.of_nat (length list_docking_poses_filepaths) <=? 52
             then Z.of_nat (length list_docking_poses_filepaths) else 52;
     flex := "flex-grow";
     width := "auto";
     observers := [] |}.

(** [viewer.hide(indices)]: the library walks the indices; one that names
    no component raises. *)
Definition hide (v : nat) (indices : list nat) : M unit :=
  for_each indices (fun i =>
    on_widget v (fun wd =>
      if bool_decide (i < length (components wd))%nat then
        (Ok tt, log_call (SetVisibility i false)
                  (set_components (alter (set_visible false) i (components wd)) wd))
      else (Raise IndexError, wd))).

(** [getattr(viewer, attr)] for the attributes [component_0],
    [component_1], ... that the library keeps, one per component. *)
Definition getattr_component (v : nat) (attr : string) : M nat :=
  do wd <- read_widget v;
  match find (fun i => bool_decide (attr = "component_" +:+ pretty (Z.of_nat i)))
             (seq 0 (length (components wd))) with
  | Some i => ret i
  | None => raise (AttributeError attr)
  end.

(** [component.show()]. *)
Definition show (v component : nat) : M unit :=
  on_widget v (fun wd =>
    (Ok tt, log_call (SetVisibility component true)
              (set_components (alter (set_visible true) component (components wd)) wd))).

(** The guard of both observers: [change["name"] == "value" and
    change["new"] != change["old"]]. *)
Definition is_new_value (change : Change) : bool :=
  bool_decide (name change = "value") && py_ne (new change) (old change).

(** [_on_selection_change] of [docking] (lines 171-181). *)
Definition docking_on_selection_change (viewer : nat)
    (list_docking_poses_filepaths : list string) (change : Change) : M unit :=
  if is_new_value change then
    do _ <- hide viewer (range1 (length list_docking_poses_filepaths));
    do component <- getattr_component viewer ("component_" +:+ str (new change));
    do _ <- show viewer component;
    do _ <- call viewer (ComponentCenter component 500);
    call viewer (ExecuteJs (RESIDUES_AROUND (str (new change)) (str 6)))
  else ret tt.

Definition docking {A} `{Str A}
    (protein_filepath protein_file_extension : string)
    (list_docking_poses_filepaths : list string)
    (docking_poses_file_extension : string)
    (list_docking_poses_labels : list string)
    (list_docking_poses_affinities : list A) : M nat :=
  do _ <- emit (Print "Docking modes");
  do _ <- emit (Print "(CID - mode)");
  do viewer <- new_widget [("height", "860px")];
  do _ <- add_component viewer (FromPath protein_filepath)
            (Some protein_file_extension) None;
  let list_docking_poses_affinities := kcal_per_mol list_docking_poses_affinities in
  do _ <- for_each (zip list_docking_poses_filepaths list_docking_poses_affinities)
            (fun '(docking_pose_filepath, ligand_label) =>
               do ngl_ligand <- add_component viewer (FromPath docking_pose_filepath)
                                  (Some docking_poses_file_extension) None;
               add_label viewer ngl_ligand [str ligand_label]);
  let selector :=
    docking_selector list_docking_poses_labels list_docking_poses_filepaths in
  do _ <- load_name "display";
  do layout <- new_layout {| left_sidebar := selector; center := Some viewer;
                             pane_widths := [1; 6; 1]; layout_height := None |};
  do _ <- emit (Display layout);
  do _ <- observe layout (DockingObserver viewer list_docking_poses_filepaths);
  do _ <- docking_on_selection_change viewer list_docking_poses_filepaths
            {| name := "value"; new := PyInt 1; old := PyNone |};
  ret viewer.

(** ** [interactions] (lines 190-316) *)

Definition color_map : list (string * list float) :=
  [ ("hydrophobic", [0.90; 0.10; 0.29]%float);
    ("hbond", [0.26; 0.83; 0.96]%float);
    ("waterbridge", [1.00; 0.88; 0.10]%float);
    ("saltbridge", [0.67; 1.00; 0.76]%float);
    ("pistacking", [0.75; 0.94; 0.27]%float);
    ("pication", [0.27; 0.60; 0.56]%float);
    ("halogen", [0.94; 0.20; 0.90]%float);
    ("metal", [0.90; 0.75; 1.00]%float) ].

(** [color_map[key]]. *)
Definition color_map_getitem (key : string) : outcome (list float) :=
  match assoc key color_map with
  | Some color => Ok color
  | None => Raise (KeyError key)
  end.

(** The selection list of the interactions view (lines 215-220). *)
Definition interactions_selector (list_docking_poses_labels list_docking_poses_filepaths
    : list string) : Select :=
  {| options := (fun '(i, label) => (label, i)) <$> enumerate list_docking_poses_labels 1;
     description := "";
     rows := if Z.of_nat (length list_docking_poses_filepaths) <=? 52
             then Z.of_nat (length list_docking_poses_filepaths) else 52;
     flex := "flex-grow";
     width := "auto";
     observers := [] |}.

(** The colour legend (lines 233-240): one image per axis of the 2 x 4
    grid, paired with the entries of the colour table. *)
Definition show_color_map : M unit :=
  do _ <- for_each (zip (seq 0 8) color_map) (fun '(ax, (interaction, _)) =>
            do color <- lift (color_map_getitem interaction);
            emit (Imshow interaction color));
  emit PltShow.

(** [pd.DataFrame.from_records(data, columns=columns)] on a list of
    tuples: the frame is as wide as the widest tuple, shorter ones are
    filled up, and a width other than the number of labels raises. *)
Definition from_records (data : list (list cell)) (columns : list cell)
    : outcome (list (list cell)) :=
  let k := max_list (length <$> data) in
  if bool_decide (k = length columns) then
    Ok ((fun r => r ++ replicate (k - length r)%nat CNone) <$> data)
  else Raise ValueError.

(** [interaction[label]] for a row of a frame with the given columns. *)
Definition row_getitem (columns row : list cell) (label : string) : outcome cell :=
  match list_find (fun c => c = CStr label) columns with
  | Some (i, _) =>
      match row !! i with
      | Some x => Ok x
      | None => Raise (KeyError label)
      end
  | None => Raise (KeyError label)
  end.

(** The inner loop (lines 289-298): one cylinder per row, and the row's
    residue appended to [interacting_residues]. *)
Fixpoint draw_rows (viewer : nat) (columns : list cell) (rows : list (list cell))
    (color : list float) (interaction_type : string)
    (interacting_residues : list cell) : M (list cell) :=
  match rows with
  | [] => ret interacting_residues
  | interaction :: rows' =>
      let name := interaction_type in
      do ligcoo <- lift (row_getitem columns interaction "LIGCOO");
      do protcoo <- lift (row_getitem columns interaction "PROTCOO");
      do _ <- call viewer (AddCylinder ligcoo protcoo color [0.1%float] name);
      do resnr <- lift (row_getitem columns interaction "RESNR");
      draw_rows viewer columns rows' color interaction_type
        (interacting_residues ++ [resnr])
  end.

(** The outer loop (lines 282-298) over [interactions.items()]. *)
Fixpoint draw_interactions (viewer : nat) (items : plip_dict)
    (interacting_residues : list cell) : M (list cell) :=
  match items with
  | [] => ret interacting_residues
  | (interaction_type, interaction_list) :: items' =>
      do color <- lift (color_map_getitem interaction_type);
      if bool_decide (length interaction_list = 1%nat) then
        draw_interactions viewer items' interacting_residues
      else
        do columns <- lift (py_index interaction_list (PyInt 0));
        do df_interactions <- lift (from_records (drop 1 interaction_list) columns);
        do interacting_residues <-
          draw_rows viewer columns df_interactions color interaction_type
            interacting_residues;
        draw_interactions viewer items' interacting_residues
  end.

(** [" or ".join([f"({r} and ...)" for r in interacting_residues])]. *)
Definition res_sele (interacting_residues : list cell) : string :=
  String.concat " or "
    ((fun r => "(" +:+ str r +:+ " and not _H)") <$> interacting_residues).
Definition res_sele_nc (interacting_residues : list cell) : string :=
  String.concat " or "
    ((fun r => "(" +:+ str r +:+ " and ((_O) or (_N) or (_S)))") <$> interacting_residues).

(** [app.center.close()]. *)
Definition close (v : nat) : M unit :=
  on_widget v (fun wd => (Ok tt, log_call Close (set_closed wd))).

(** [_on_selection_change] of [interactions] (lines 248-310). *)
Definition interactions_on_selection_change (app : nat)
    (protein_filepath protein_file_extension : string)
    (list_docking_poses_filepaths : list string)
    (docking_poses_file_extension : string)
    (list_docking_poses_affinities : list string)
    (list_docking_poses_plip_dicts : list plip_dict)
    (change : Change) : M unit :=
  if is_new_value change then
    do layout <- read_layout app;
    do _ <- match center layout with
            | Some old_viewer => close old_viewer
            | None => ret tt
            end;
    do viewer <- new_widget [("height", "860px"); ("default", "True"); ("gui", "True")];
    do _ <- on_layout app (set_center (Some viewer));
    do prot_component <- add_component viewer (FromPath protein_filepath)
                           (Some protein_file_extension) (Some false);
    do _ <- call viewer (AddRepresentation (Some prot_component) "cartoon" None);
    do _ <- emit (Sleep 1);
    do pose <- lift (py_index list_docking_poses_filepaths (new change));
    do lig_component <- add_component viewer (FromPath pose)
                          (Some docking_poses_file_extension) None;
    do affinity <- lift (py_index list_docking_poses_affinities (new change));
    do _ <- add_label viewer lig_component [str affinity];
    do _ <- emit (Sleep 1);
    do _ <- call viewer (ComponentCenter lig_component 500);
    do interactions <- lift (py_index list_docking_poses_plip_dicts (new change));
    do interacting_residues <- draw_interactions viewer interactions [];
    do _ <- call viewer (AddBallAndStick prot_component
                           (res_sele interacting_residues) "chainindex" 1.5%float);
    call viewer (AddBallAndStick prot_component
                   (res_sele_nc interacting_residues) "element" 1.5%float)
  else ret tt.

Definition interactions {A} `{Str A}
    (protein_filepath protein_file_extension : string)
    (list_docking_poses_filepaths : list string)
    (docking_poses_file_extension : string)
    (list_docking_poses_labels : list string)
    (list_docking_poses_affinities : list A)
    (list_docking_poses_plip_dicts : list plip_dict) : M nat :=
  let selector :=
    interactions_selector list_docking_poses_labels list_docking_poses_filepaths in
  do app <- new_layout {| left_sidebar := selector; center := None;
                          pane_widths := [1; 6; 1]; layout_height := Some "860px" |};
  do _ <- show_color_map;
  let list_docking_poses_affinities := kcal_per_mol list_docking_poses_affinities in
  do _ <- observe app
            (InteractionsObserver app protein_filepath protein_file_extension
               list_docking_poses_filepaths docking_poses_file_extension
               list_docking_poses_affinities list_docking_poses_plip_dicts);
  do _ <- interactions_on_selection_change app protein_filepath protein_file_extension
            list_docking_poses_filepaths docking_poses_file_extension
            list_docking_poses_affinities list_docking_poses_plip_dicts
            {| name := "value"; new := PyInt 0; old := PyNone |};
  ret app.

(** ** Notifications *)

(** What a registered observer does with a notification. *)
Definition notify (o : Observer) (change : Change) : M unit :=
  match o with
  | DockingObserver viewer filepaths =>
      docking_on_selection_change viewer filepaths change
  | InteractionsObserver app protein_filepath protein_file_extension filepaths
      docking_poses_file_extension affinities plip_dicts =>
      interactions_on_selection_change app protein_filepath protein_file_extension
        filepaths docking_poses_file_extension affinities plip_dicts change
  end.

(** The notification the selection list sends when the user clicks on the
    entry at [position] while [old] is selected: its value becomes the value
    paired with that entry. *)
Definition click (s : Select) (position : nat) (old : pyval) : option Change :=
  match options s !! position with
  | Some (_, value) => Some {| name := "value"; new := PyInt value; old := old |}
  | None => None
  end.

End Program.

(** * Properties *)

(** ** The store *)

(** The world in which widget [v] has become [wd]. *)
Definition upd (v : nat) (wd : NGLWidget) (w : World) : World :=
  set_widgets (<[v := wd]> (widgets w)) w.

Lemma lookup_total_snoc {A} `{Inhabited A} (l : list A) (x : A) :
  (l ++ [x]) !!! length l = x.
Proof.
  apply list_lookup_total_correct.
  rewrite lookup_app_r by lia. by rewrite Nat.sub_diag.
Qed.

Lemma lookup_snoc {A} (l : list A) (x : A) : (l ++ [x]) !! length l = Some x.
Proof. rewrite lookup_app_r by lia. by rewrite Nat.sub_diag. Qed.

Lemma insert_snoc {A} (l : list A) (x y : A) :
  <[length l := y]> (l ++ [x]) = l ++ [y].
Proof.
  rewrite insert_app_r_alt by lia. by rewrite Nat.sub_diag.
Qed.

Lemma upd_upd v a b w : upd v b (upd v a w) = upd v b w.
Proof. unfold upd, set_widgets; simpl. by rewrite list_insert_insert_eq. Qed.

Lemma upd_id v wd w : widgets w !! v = Some wd -> upd v wd w = w.
Proof.
  intros Hv. unfold upd, set_widgets. rewrite list_insert_id by done. by destruct w.
Qed.

Lemma upd_lookup v a wd w :
  widgets w !! v = Some a -> widgets (upd v wd w) !! v = Some wd.
Proof.
  intros Hv. unfold upd; simpl. apply list_lookup_insert_eq.
  by apply lookup_lt_Some in Hv.
Qed.

Lemma upd_snoc wd wd' w :
  upd (length (widgets w)) wd' (set_widgets (widgets w ++ [wd]) w)
  = set_widgets (widgets w ++ [wd']) w.
Proof. unfold upd, set_widgets; simpl. by rewrite insert_snoc. Qed.

Lemma on_widget_at {A} v (f : NGLWidget -> outcome A * NGLWidget) w wd :
  widgets w !! v = Some wd ->
  on_widget v f w = (fst (f wd), upd v (snd (f wd)) w).
Proof.
  intros Hv. unfold on_widget. rewrite (list_lookup_total_correct _ _ _ Hv).
  by destruct (f wd).
Qed.

Lemma call_at v c w wd :
  widgets w !! v = Some wd -> call v c w = (Ok tt, upd v (log_call c wd) w).
Proof. intros Hv. unfold call. by rewrite (on_widget_at _ _ _ _ Hv). Qed.

Lemma read_widget_at v w wd :
  widgets w !! v = Some wd -> read_widget v w = (Ok wd, w).
Proof. intros Hv. unfold read_widget. by rewrite (list_lookup_total_correct _ _ _ Hv). Qed.

Lemma is_new_value_false change :
  name change ≠ "value" ∨ new change = old change -> is_new_value change = false.
Proof.
  intros [Hn | He]; unfold is_new_value, py_ne.
  - by rewrite bool_decide_eq_false_2.
  - rewrite (bool_decide_eq_true_2 _ He). apply andb_false_r.
Qed.

Lemma is_new_value_true change :
  name change = "value" -> new change ≠ old change -> is_new_value change = true.
Proof.
  intros Hn He. unfold is_new_value, py_ne.
  by rewrite (bool_decide_eq_true_2 _ Hn), (bool_decide_eq_false_2 _ He).
Qed.

(** ** [binding_site] *)

(** C5: whatever its arguments and whatever the environment,
    [binding_site] raises [NameError] for the name [NGLView], which is bound
    neither in the module nor among the built-ins, and it does so before
    anything else happens: the world is untouched, so no file, the CCP4 file
    included, has been opened. *)
Theorem binding_site_raises_NameError :
  assoc "NGLView" module_globals = None ∧
  ("NGLView" ∉ builtins) ∧
  ∀ (env : Env) (protein_input_type protein_input_value ccp4_filepath : string)
    (w : World),
    binding_site env protein_input_type protein_input_value ccp4_filepath w
    = (Raise (NameError "NGLView"), w).
Proof.
  split; [reflexivity |]. split.
  - intros Hin. by apply (bool_decide_eq_false_1 ("NGLView" ∈ builtins)) in Hin.
  - reflexivity.
Qed.

(** ** The selection list *)

(** C10: in both views the selection list shows as many rows as there are
    pose file paths when these are at most 52, and exactly 52 rows when there
    are more. *)
Theorem selector_rows (labels filepaths : list string) :
  let n := Z.of_nat (length filepaths) in
  (n <= 52 -> rows (docking_selector labels filepaths) = n
              ∧ rows (interactions_selector labels filepaths) = n)
  ∧ (52 < n -> rows (docking_selector labels filepaths) = 52
               ∧ rows (interactions_selector labels filepaths) = 52).
Proof.
  intros n; subst n; simpl. split; intros Hn.
  - by rewrite (proj2 (Z.leb_le _ _) Hn).
  - by rewrite (proj2 (Z.leb_gt _ _) Hn).
Qed.

Lemma selector_rows_witness :
  rows (docking_selector ["a"; "b"] ["p1"; "p2"]) = 2
  ∧ rows (interactions_selector ["a"; "b"] ["p1"; "p2"]) = 2.
Proof. apply (selector_rows ["a"; "b"] ["p1"; "p2"]). simpl. lia. Defined.

(** ** The observer of the docking view *)

(** C8: a notification whose name is not ["value"], or whose new value
    equals the old one, leaves the world as it is: no visibility changes, no
    centering, no script. *)
Theorem docking_callback_ignores (viewer : nat) (filepaths : list string)
    (change : Change) (w : World) :
  name change ≠ "value" ∨ new change = old change ->
  docking_on_selection_change viewer filepaths change w = (Ok tt, w).
Proof.
  intros H. unfold docking_on_selection_change.
  by rewrite (is_new_value_false _ H).
Qed.

Lemma docking_callback_ignores_witness :
  docking_on_selection_change 0 ["a.pdbqt"]
    {| name := "index"; new := PyInt 1; old := PyInt 0 |}
    {| widgets := []; layouts := []; events := [] |}
  = (Ok tt, {| widgets := []; layouts := []; events := [] |})
  ∧ docking_on_selection_change 0 ["a.pdbqt"]
      {| name := "value"; new := PyInt 1; old := PyInt 1 |}
      {| widgets := []; layouts := []; events := [] |}
    = (Ok tt, {| widgets := []; layouts := []; events := [] |}).
Proof.
  split.
  - apply (docking_callback_ignores 0 ["a.pdbqt"]). left. simpl. discriminate.
  - apply (docking_callback_ignores 0 ["a.pdbqt"]). right. reflexivity.
Defined.

Lemma alloc_lookup wd w :
  widgets (set_widgets (widgets w ++ [wd]) w) !! length (widgets w) = Some wd.
Proof. apply lookup_snoc. Qed.

Lemma bind_bind {A B C} (m : M A) (f : A -> M B) (g : B -> M C) w :
  bind (bind m f) g w = bind m (fun a => bind (f a) g) w.
Proof. unfold bind. by destruct (m w) as [[a | e] w']. Qed.

Lemma bind_ret {A B} (a : A) (f : A -> M B) w : bind (ret a) f w = f a w.
Proof. reflexivity. Qed.

(** Reduce the projections of a world built by the setters. *)
Ltac norm_world :=
  unfold upd, set_widgets, set_layouts, log_event;
  cbn [widgets layouts events];
  rewrite ?insert_snoc, ?list_insert_insert_eq.

Ltac solve_lookup :=
  cbn [widgets layouts events set_widgets set_layouts log_event upd];
  first [ apply lookup_snoc
        | eassumption
        | apply list_lookup_insert_eq; eapply lookup_lt_Some; eassumption ].

(** One [call] on a widget whose state is known, at the head of a
    computation. *)
Ltac step_call :=
  rewrite ?bind_bind;
  unfold bind at 1;
  erewrite call_at by solve_lookup;
  norm_world.

(** ** [protein] *)

Lemma new_widget_run args w :
  new_widget args w
  = (Ok (length (widgets w)),
     set_widgets (widgets w ++
       [{| kwargs := args; components := []; calls := []; closed := false |}]) w).
Proof. reflexivity. Qed.

Lemma add_component_at env v src extension dr w wd :
  source_error env src = None ->
  widgets w !! v = Some wd ->
  add_component env v src extension dr w
  = (Ok (length (components wd)),
     upd v (log_call (AddComponent src extension dr)
              (set_components
                 (components wd ++
                    [{| source := src; ext := extension; visible := true |}]) wd)) w).
Proof.
  intros Hs Hv. unfold add_component. rewrite Hs.
  by rewrite (on_widget_at _ _ _ _ Hv).
Qed.

Lemma show_structure_run env src extension args dr w :
  source_error env src = None ->
  show_structure env src extension args dr w
  = (Ok (length (widgets w)),
     set_widgets (widgets w ++
       [{| kwargs := args;
           components := [{| source := src; ext := extension; visible := true |}];
           calls := [AddComponent src extension dr];
           closed := false |}]) w).
Proof.
  intros Hs. unfold show_structure. rewrite Hs.
  unfold bind. rewrite new_widget_run.
  erewrite add_component_at; [| done | apply lookup_snoc].
  unfold ret. by rewrite upd_snoc.
Qed.

(** The calls that save the image, when a file name is given (lines
    55-58). *)
Definition image_calls (output_image_filename : option string) : list Call :=
  match output_image_filename with
  | Some filename => [RenderImage true 2; DisplayImage; DownloadImage filename]
  | None => []
  end.

(** C6: [protein] dispatches on [input_type].  For ["pdb_code"] the
    structure is fetched by its identifier and no file is opened (the events
    of the world are unchanged); for any other [input_type] the file at
    [input_value] is opened, handed to the viewer with [input_type] as its
    extension, and closed.  In both cases the returned viewer is a new widget
    whose calls include the ball-and-stick representation of
    ["hetero and not water"] followed by the centering on ["protein"]. *)
Theorem protein_dispatch (env : Env) (input_type input_value : string)
    (output_image_filename : option string) (w : World) :
  (input_type = "pdb_code" ->
   fetch_error env input_value = None ->
   protein env input_type input_value output_image_filename w
   = (Ok (length (widgets w)),
      {| widgets := widgets w ++
           [{| kwargs := [("height", "600px")];
               components :=
                 [{| source := FromPdbId input_value; ext := None; visible := true |}];
               calls :=
                 [AddComponent (FromPdbId input_value) None None;
                  AddRepresentation None "ball+stick" (Some "hetero and not water");
                  Center (Some "protein")] ++ image_calls output_image_filename;
               closed := false |}];
         layouts := layouts w;
         events := events w |}))
  ∧
  (input_type ≠ "pdb_code" ->
   open_error env input_value = None ->
   load_error env input_value = None ->
   protein env input_type input_value output_image_filename w
   = (Ok (length (widgets w)),
      {| widgets := widgets w ++
           [{| kwargs := [("height", "600px")];
               components :=
                 [{| source := FromHandle input_value; ext := Some input_type;
                     visible := true |}];
               calls :=
                 [AddComponent (FromHandle input_value) (Some input_type) (Some false);
                  AddRepresentation None "cartoon" (Some "protein");
                  AddRepresentation None "ball+stick" (Some "hetero and not water");
                  Center (Some "protein")] ++ image_calls output_image_filename;
               closed := false |}];
         layouts := layouts w;
         events := events w ++ [OpenFile input_value "r"; CloseFile input_value] |})).
Proof.
  split.
  - intros Ht Hf. unfold protein, show_pdbid.
    rewrite (bool_decide_eq_true_2 _ Ht).
    unfold bind at 1. rewrite show_structure_run by done. norm_world.
    destruct output_image_filename; repeat step_call; reflexivity.
  - intros Ht Ho Hl. unfold protein, show_file, with_open.
    rewrite (bool_decide_eq_false_2 _ Ht).
    unfold bind at 1. unfold bind at 1. unfold emit at 1. rewrite Ho.
    unfold bind at 1. rewrite show_structure_run by done. norm_world.
    step_call. unfold ret at 1. norm_world.
    destruct output_image_filename; repeat step_call;
      rewrite <- app_assoc; reflexivity.
Qed.

Lemma protein_dispatch_witness :
  let env := {| open_error := fun _ => None; load_error := fun _ => None;
                fetch_error := fun _ => None |} in
  let w := {| widgets := []; layouts := []; events := [] |} in
  events (snd (protein env "pdb_code" "3POZ" None w)) = []
  ∧ events (snd (protein env "pdb" "protein.pdb" None w))
    = [OpenFile "protein.pdb" "r"; CloseFile "protein.pdb"].
Proof.
  intros env w. split.
  - rewrite (proj1 (protein_dispatch env "pdb_code" "3POZ" None w));
      [reflexivity | reflexivity | reflexivity].
  - rewrite (proj2 (protein_dispatch env "pdb" "protein.pdb" None w));
      [reflexivity | discriminate | reflexivity | reflexivity].
Defined.

(** ** The observer of the docking view: an effective change *)

(** The widget after [viewer.hide(indices)]. *)
Definition hide_step (wd : NGLWidget) (i : nat) : NGLWidget :=
  log_call (SetVisibility i false)
    (set_components (alter (set_visible false) i (components wd)) wd).

Definition hidden (indices : list nat) (wd : NGLWidget) : NGLWidget :=
  foldl hide_step wd indices.

Lemma hidden_length indices wd :
  length (components (hidden indices wd)) = length (components wd).
Proof.
  revert wd. induction indices as [| i l IH]; intros wd; [done |].
  simpl. rewrite IH. simpl. apply length_alter.
Qed.

Lemma hidden_calls indices wd :
  calls (hidden indices wd)
  = calls wd ++ ((fun i => SetVisibility i false) <$> indices).
Proof.
  revert wd. induction indices as [| i l IH]; intros wd; simpl.
  - by rewrite app_nil_r.
  - rewrite IH. simpl. by rewrite <- app_assoc.
Qed.

Lemma hidden_visible indices wd j :
  visible <$> components (hidden indices wd) !! j
  = (if bool_decide (j ∈ indices) then fun _ => false else fun b => b)
      <$> (visible <$> components wd !! j).
Proof.
  revert wd. induction indices as [| i l IH]; intros wd.
  - rewrite bool_decide_eq_false_2 by apply not_elem_of_nil.
    change (hidden [] wd) with wd. by destruct (components wd !! j).
  - change (hidden (i :: l) wd) with (hidden l (hide_step wd i)).
    rewrite IH. cbn [hide_step log_call set_components components].
    rewrite list_lookup_alter.
    destruct (decide (i = j)) as [-> | Hij].
    + rewrite (bool_decide_eq_true_2 (j ∈ j :: l)) by apply list_elem_of_here.
      destruct (components wd !! j); cbn [fmap option_fmap option_map set_visible visible];
        by case_bool_decide.
    + assert (Hiff : j ∈ i :: l <-> j ∈ l).
      { rewrite elem_of_cons. split; [intros [? | ?]; [congruence | done] | by right]. }
      rewrite (bool_decide_ext _ _ Hiff). done.
Qed.

Lemma hidden_first indices wd :
  0%nat ∉ indices -> components (hidden indices wd) !! 0%nat = components wd !! 0%nat.
Proof.
  revert wd. induction indices as [| i l IH]; intros wd Hn; [done |].
  simpl. rewrite IH by (intros ?; apply Hn; by apply list_elem_of_further).
  simpl. apply list_lookup_alter_ne. intros ->. apply Hn, list_elem_of_here.
Qed.

Lemma hide_at v indices w wd :
  widgets w !! v = Some wd ->
  Forall (fun i => (i < length (components wd))%nat) indices ->
  hide v indices w = (Ok tt, upd v (hidden indices wd) w).
Proof.
  revert w wd. induction indices as [| i l IH]; intros w wd Hv Hall.
  - simpl. unfold hide; simpl. unfold ret. by rewrite upd_id.
  - apply Forall_cons in Hall as [Hi Hl].
    unfold hide in *. simpl. unfold bind at 1.
    rewrite (on_widget_at _ _ _ _ Hv).
    rewrite (bool_decide_eq_true_2 _ Hi). simpl.
    rewrite (IH _ (hide_step wd i)).
    + by rewrite upd_upd.
    + by apply (upd_lookup _ _ _ _ Hv).
    + simpl. by rewrite length_alter.
Qed.

Lemma find_seq_unique (P : nat -> bool) (a n i : nat) :
  (a <= i < a + n)%nat -> P i = true -> (∀ j, P j = true -> j = i) ->
  find P (seq a n) = Some i.
Proof.
  revert a. induction n as [| n IH]; intros a Hr Hi Hu; [lia |].
  simpl. destruct (P a) eqn:Ha.
  - f_equal. by apply Hu.
  - apply IH; [| done | done].
    destruct (decide (a = i)) as [-> | ?]; [congruence | lia].
Qed.

Lemma getattr_component_at v w wd (i : nat) :
  widgets w !! v = Some wd ->
  (i < length (components wd))%nat ->
  getattr_component v ("component_" +:+ pretty (Z.of_nat i)) w = (Ok i, w).
Proof.
  intros Hv Hi. unfold getattr_component, bind.
  rewrite (read_widget_at _ _ _ Hv).
  rewrite (find_seq_unique _ 0 _ i); [done | lia | by apply bool_decide_eq_true_2 |].
  intros j Hj. apply bool_decide_eq_true_1 in Hj.
  apply (inj (String.append "component_")) in Hj.
  apply (inj pretty) in Hj. lia.
Qed.

Lemma show_at v c w wd :
  widgets w !! v = Some wd ->
  show v c w
  = (Ok tt, upd v (log_call (SetVisibility c true)
                     (set_components (alter (set_visible true) c (components wd)) wd)) w).
Proof. intros Hv. unfold show. by rewrite (on_widget_at _ _ _ _ Hv). Qed.

(** What the observer of the docking view does on an effective change
    that names one of the poses. *)
Lemma docking_callback_effective (viewer : nat) (filepaths : list string)
    (change : Change) (w : World) (wd : NGLWidget) (i : Z) :
  widgets w !! viewer = Some wd ->
  length (components wd) = S (length filepaths) ->
  name change = "value" ->
  new change = PyInt i ->
  new change ≠ old change ->
  1 <= i <= Z.of_nat (length filepaths) ->
  ∃ wd' : NGLWidget,
    docking_on_selection_change viewer filepaths change w = (Ok tt, upd viewer wd' w)
    ∧ calls wd'
      = calls wd
        ++ ((fun j => SetVisibility j false) <$> seq 1 (length filepaths))
        ++ [SetVisibility (Z.to_nat i) true;
            ComponentCenter (Z.to_nat i) 500;
            ExecuteJs (RESIDUES_AROUND (pretty i) "6")]
    ∧ (∀ j : nat, (1 <= j <= length filepaths)%nat ->
         visible <$> components wd' !! j = Some (bool_decide (j = Z.to_nat i)))
    ∧ components wd' !! 0%nat = components wd !! 0%nat
    ∧ length (components wd') = length (components wd).
Proof.
  intros Hv Hlen Hname Hnew Hne Hi.
  set (k := Z.to_nat i).
  assert (Hk : i = Z.of_nat k) by (unfold k; lia).
  assert (Hkr : (1 <= k <= length filepaths)%nat) by (unfold k; lia).
  set (wd1 := hidden (seq 1 (length filepaths)) wd).
  set (wd2 := log_call (SetVisibility k true)
                (set_components (alter (set_visible true) k (components wd1)) wd1)).
  set (wd3 := log_call (ExecuteJs (RESIDUES_AROUND (pretty i) "6"))
                (log_call (ComponentCenter k 500) wd2)).
  assert (Hlen1 : length (components wd1) = S (length filepaths))
    by (unfold wd1; by rewrite hidden_length).
  exists wd3. split; [| split; [| split; [| split]]].
  - unfold docking_on_selection_change.
    rewrite (is_new_value_true _ Hname Hne). rewrite Hnew.
    unfold bind at 1. rewrite (hide_at _ _ _ wd Hv).
    2:{ unfold range1. apply Forall_forall. intros j Hj.
        apply elem_of_seq in Hj. lia. }
    fold wd1. unfold bind at 1.
    change (str (PyInt i)) with (pretty i). rewrite Hk at 1.
    rewrite (getattr_component_at _ _ wd1 k); [| by eapply upd_lookup | lia].
    unfold bind at 1. rewrite (show_at _ _ _ wd1) by (by eapply upd_lookup).
    rewrite upd_upd. fold wd2.
    unfold bind at 1. rewrite (call_at _ _ _ wd2) by (by eapply upd_lookup).
    rewrite upd_upd.
    rewrite (call_at _ _ _ (log_call (ComponentCenter k 500) wd2))
      by (by eapply upd_lookup).
    by rewrite upd_upd.
  - unfold wd3, wd2; simpl. unfold wd1. rewrite hidden_calls.
    by rewrite <- !app_assoc.
  - intros j Hj. unfold wd3, wd2; simpl.
    rewrite list_lookup_alter.
    assert (Hjl : (j < length (components wd))%nat) by lia.
    destruct (lookup_lt_is_Some_2 _ _ Hjl) as [c Hc].
    assert (Hvis : visible <$> components wd1 !! j = Some false).
    { unfold wd1. rewrite hidden_visible, Hc. simpl.
      rewrite bool_decide_eq_true_2; [done |]. apply elem_of_seq. lia. }
    destruct (decide (k = j)) as [-> | Hkj].
    + destruct (components wd1 !! j); [| done]. simpl.
      by rewrite bool_decide_eq_true_2.
    + rewrite Hvis. by rewrite bool_decide_eq_false_2.
  - unfold wd3, wd2; simpl. rewrite list_lookup_alter_ne by lia.
    unfold wd1. apply hidden_first. intros Hin. apply elem_of_seq in Hin. lia.
  - unfold wd3, wd2; simpl. rewrite length_alter. by rewrite Hlen1.
Qed.

(** C3: in the docking view, a notification named ["value"] whose new
    value [i] differs from the old one and names one of the [n] poses
    ([1 <= i <= n], the values of the selection list), received by a viewer that
    holds the protein and the [n] poses, makes the observer hide components
    [1..n], then show and center component [i] (and run the residue script
    for it).  Afterwards component [i] is the only visible one among the
    poses; the protein, component 0, is untouched. *)
Theorem docking_callback_selects (viewer : nat) (filepaths : list string)
    (change : Change) (w : World) (wd : NGLWidget) (i : Z) :
  widgets w !! viewer = Some wd ->
  length (components wd) = S (length filepaths) ->
  name change = "value" ->
  new change = PyInt i ->
  new change ≠ old change ->
  1 <= i <= Z.of_nat (length filepaths) ->
  ∃ wd' : NGLWidget,
    docking_on_selection_change viewer filepaths change w = (Ok tt, upd viewer wd' w)
    ∧ calls wd'
      = calls wd
        ++ ((fun j => SetVisibility j false) <$> seq 1 (length filepaths))
        ++ [SetVisibility (Z.to_nat i) true;
            ComponentCenter (Z.to_nat i) 500;
            ExecuteJs (RESIDUES_AROUND (pretty i) "6")]
    ∧ (∀ j : nat, (1 <= j <= length filepaths)%nat ->
         visible <$> components wd' !! j = Some (bool_decide (j = Z.to_nat i)))
    ∧ components wd' !! 0%nat = components wd !! 0%nat
    ∧ length (components wd') = length (components wd).
Proof. apply docking_callback_effective. Qed.

Lemma docking_callback_selects_witness :
  let w := {| widgets :=
                [{| kwargs := [("height", "860px")];
                    components :=
                      [{| source := FromPath "protein.pdb"; ext := Some "pdb";
                          visible := true |};
                       {| source := FromPath "a.pdbqt"; ext := Some "pdbqt";
                          visible := true |};
                       {| source := FromPath "b.pdbqt"; ext := Some "pdbqt";
                          visible := false |}];
                    calls := []; closed := false |}];
              layouts := []; events := [] |} in
  ∃ wd' : NGLWidget,
    docking_on_selection_change 0 ["a.pdbqt"; "b.pdbqt"]
      {| name := "value"; new := PyInt 2; old := PyInt 1 |} w
    = (Ok tt, upd 0 wd' w)
    ∧ visible <$> components wd' !! 1%nat = Some false
    ∧ visible <$> components wd' !! 2%nat = Some true.
Proof.
  intros w.
  destruct (docking_callback_selects 0 ["a.pdbqt"; "b.pdbqt"]
              {| name := "value"; new := PyInt 2; old := PyInt 1 |} w
              (widgets w !!! 0%nat) 2)
    as (wd' & Hrun & _ & Hvis & _).
  - reflexivity.
  - reflexivity.
  - reflexivity.
  - reflexivity.
  - discriminate.
  - simpl. lia.
  - exists wd'. split; [exact Hrun |]. split.
    + apply (Hvis 1%nat). simpl. lia.
    + apply (Hvis 2%nat). simpl. lia.
Defined.

(** ** Frames: which objects a computation can touch *)

(** From [w] to [w'] no layout has changed, no widget has been created,
    no widget other than [v] has changed, and no widget has been closed. *)
Definition frame (v : nat) (w w' : World) : Prop :=
  layouts w' = layouts w
  ∧ length (widgets w') = length (widgets w)
  ∧ (∀ u, u ≠ v -> widgets w' !! u = widgets w !! u)
  ∧ (∀ u, closed <$> widgets w' !! u = closed <$> widgets w !! u).

Definition touches_only {A} (v : nat) (m : M A) : Prop :=
  ∀ w, frame v w (snd (m w)).

Lemma frame_refl v w : frame v w w.
Proof. by repeat split. Qed.

Lemma frame_trans v w1 w2 w3 : frame v w1 w2 -> frame v w2 w3 -> frame v w1 w3.
Proof.
  intros (Hl1 & Hn1 & Ho1 & Hc1) (Hl2 & Hn2 & Ho2 & Hc2). repeat split.
  - congruence.
  - congruence.
  - intros u Hu. rewrite Ho2, Ho1; done.
  - intros u. by rewrite Hc2, Hc1.
Qed.

Lemma frame_upd v wd w :
  closed wd = closed (widgets w !!! v) -> frame v w (upd v wd w).
Proof.
  intros Hc. unfold upd. repeat split; simpl.
  - apply length_insert.
  - intros u Hu. by apply list_lookup_insert_ne.
  - intros u. destruct (decide (u = v)) as [-> | Hu].
    + destruct (widgets w !! v) as [x |] eqn:Hx.
      * rewrite list_lookup_insert_eq by (by eapply lookup_lt_Some).
        simpl. by rewrite Hc, (list_lookup_total_correct _ _ _ Hx).
      * rewrite list_insert_ge by (by apply lookup_ge_None). by rewrite Hx.
    + by rewrite list_lookup_insert_ne.
Qed.

Lemma touches_ret {A} v (a : A) : touches_only v (ret a).
Proof. intros w. apply frame_refl. Qed.

Lemma touches_raise {A} v e : touches_only v (@raise A e).
Proof. intros w. apply frame_refl. Qed.

Lemma touches_lift {A} v (o : outcome A) : touches_only v (lift o).
Proof. intros w. apply frame_refl. Qed.

Lemma touches_emit v e : touches_only v (emit e).
Proof. intros w. by repeat split. Qed.

Lemma touches_bind {A B} v (m : M A) (k : A -> M B) :
  touches_only v m -> (∀ a, touches_only v (k a)) -> touches_only v (bind m k).
Proof.
  intros Hm Hk w. unfold bind. specialize (Hm w).
  destruct (m w) as [[a | e] w']; simpl in *; [| done].
  eapply frame_trans; [exact Hm | apply Hk].
Qed.

Lemma touches_on_widget {A} v (f : NGLWidget -> outcome A * NGLWidget) :
  (∀ wd, closed (snd (f wd)) = closed wd) -> touches_only v (on_widget v f).
Proof.
  intros Hf w. unfold on_widget.
  specialize (Hf (widgets w !!! v)).
  destruct (f (widgets w !!! v)) as [r wd']; simpl in *.
  by apply frame_upd.
Qed.

Lemma touches_call v c : c ≠ Close -> touches_only v (call v c).
Proof. intros _. by apply touches_on_widget. Qed.

Lemma touches_read_widget v : touches_only v (read_widget v).
Proof. intros w. apply frame_refl. Qed.

Lemma touches_for_each {A} v (l : list A) (body : A -> M unit) :
  (∀ x, touches_only v (body x)) -> touches_only v (for_each l body).
Proof.
  intros Hb. induction l as [| x l IH]; simpl.
  - apply touches_ret.
  - apply touches_bind; [apply Hb | by intros _].
Qed.

Lemma touches_add_component env v src extension dr :
  touches_only v (add_component env v src extension dr).
Proof.
  unfold add_component. destruct (source_error env src).
  - apply touches_raise.
  - by apply touches_on_widget.
Qed.

Create HintDb touches.
#[local] Hint Resolve touches_ret touches_raise touches_lift touches_emit
  touches_read_widget touches_add_component : touches.

Lemma touches_docking_callback viewer filepaths change :
  touches_only viewer (docking_on_selection_change viewer filepaths change).
Proof.
  unfold docking_on_selection_change. destruct (is_new_value change);
    [| apply touches_ret].
  apply touches_bind.
  { apply touches_for_each. intros i. apply touches_on_widget.
    intros wd. by case_bool_decide. }
  intros _. apply touches_bind.
  { unfold getattr_component. apply touches_bind; [apply touches_read_widget |].
    intros wd. destruct (find _ _); auto with touches. }
  intros c. apply touches_bind; [by apply touches_on_widget |].
  intros _. apply touches_bind; by (try intros _; apply touches_call).
Qed.

Lemma touches_draw_rows v columns rows color ty res :
  touches_only v (draw_rows v columns rows color ty res).
Proof.
  revert res. induction rows as [| row rows IH]; intros res; simpl.
  - apply touches_ret.
  - apply touches_bind; [apply touches_lift | intros ligcoo].
    apply touches_bind; [apply touches_lift | intros protcoo].
    apply touches_bind; [by apply touches_call | intros _].
    apply touches_bind; [apply touches_lift | intros resnr].
    apply IH.
Qed.

Lemma touches_draw_interactions v items res :
  touches_only v (draw_interactions v items res).
Proof.
  revert res. induction items as [| [ty t] items IH]; intros res; simpl.
  - apply touches_ret.
  - apply touches_bind; [apply touches_lift | intros color].
    case_bool_decide; [apply IH |].
    apply touches_bind; [apply touches_lift | intros columns].
    apply touches_bind; [apply touches_lift | intros df].
    apply touches_bind; [apply touches_draw_rows | intros res'; apply IH].
Qed.

(** ** The interaction overlay *)

(** The cell of a row under a column label; [CNone] where the lookup
    raises. *)
Definition field (columns row : list cell) (label : string) : cell :=
  match row_getitem columns row label with
  | Ok x => x
  | Raise _ => CNone
  end.

(** A table as the overlay expects it: a tuple of column labels, followed
    by records as wide as that tuple; when there are records, the labels
    include the three the loop reads. *)
Definition wf_table (t : list (list cell)) : bool :=
  match t with
  | [] => false
  | [_] => true
  | columns :: data =>
      bool_decide (CStr "LIGCOO" ∈ columns)
      && bool_decide (CStr "PROTCOO" ∈ columns)
      && bool_decide (CStr "RESNR" ∈ columns)
      && forallb (fun r => bool_decide (length r = length columns)) data
  end.

Definition wf_entry (e : string * list (list cell)) : bool :=
  match assoc e.1 color_map with
  | Some _ => wf_table e.2
  | None => false
  end.

(** The records of a table: its tuples after the first. *)
Definition records (t : list (list cell)) : list (list cell) := drop 1 t.

(** The cylinders of one entry of the dictionary: one per record, in the
    colour of the entry's interaction type. *)
Definition entry_cylinders (e : string * list (list cell)) : list Call :=
  match color_map_getitem e.1, e.2 with
  | Ok color, columns :: _ =>
      (fun row => AddCylinder (field columns row "LIGCOO") (field columns row "PROTCOO")
                    color [0.1%float] e.1) <$> records e.2
  | _, _ => []
  end.

Definition entry_residues (e : string * list (list cell)) : list cell :=
  match e.2 with
  | columns :: _ => (fun row => field columns row "RESNR") <$> records e.2
  | [] => []
  end.

(** The widget [wd] after the calls [cs]. *)
Definition with_calls (cs : list Call) (wd : NGLWidget) : NGLWidget :=
  {| kwargs := kwargs wd; components := components wd;
     calls := calls wd ++ cs; closed := closed wd |}.

Lemma with_calls_nil wd : with_calls [] wd = wd.
Proof. unfold with_calls. rewrite app_nil_r. by destruct wd. Qed.

Lemma with_calls_app cs1 cs2 wd :
  with_calls cs2 (with_calls cs1 wd) = with_calls (cs1 ++ cs2) wd.
Proof. unfold with_calls; simpl. by rewrite app_assoc. Qed.

Lemma log_call_with_calls c wd : log_call c wd = with_calls [c] wd.
Proof. reflexivity. Qed.

Lemma row_getitem_ok columns row label :
  CStr label ∈ columns -> length row = length columns ->
  row_getitem columns row label = Ok (field columns row label).
Proof.
  intros Hin Hlen. unfold field, row_getitem.
  destruct (list_find_elem_of (fun c => c = CStr label) columns (CStr label) Hin eq_refl)
    as [[i c] Hfind].
  rewrite Hfind. apply list_find_Some in Hfind as (Hi & _ & _).
  apply lookup_lt_Some in Hi. rewrite <- Hlen in Hi.
  destruct (lookup_lt_is_Some_2 _ _ Hi) as [x Hx]. by rewrite Hx.
Qed.

Lemma max_list_const (n : nat) (ns : list nat) :
  ns ≠ [] -> Forall (fun m => m = n) ns -> max_list ns = n.
Proof.
  intros Hne Hall. induction Hall as [| m ns -> Hall IH]; [done |].
  simpl. destruct ns as [| m' ns']; [simpl; lia |].
  rewrite IH by done. lia.
Qed.

Lemma from_records_rect (data : list (list cell)) (columns : list cell) :
  data ≠ [] -> Forall (fun r => length r = length columns) data ->
  from_records data columns = Ok data.
Proof.
  intros Hne Hall. unfold from_records.
  assert (Hmax : max_list (length <$> data) = length columns).
  { apply max_list_const.
    - by destruct data.
    - by apply Forall_fmap. }
  rewrite Hmax, bool_decide_eq_true_2 by done. f_equal.
  induction Hall as [| r data Hr Hall IH]; [done |].
  simpl. rewrite Hr, Nat.sub_diag. simpl. rewrite app_nil_r. f_equal.
  destruct data as [| r' data']; [done |]. apply IH; [done |].
  apply max_list_const; [done | by apply Forall_fmap].
Qed.

Lemma draw_rows_wf v columns rows color ty res w wd :
  widgets w !! v = Some wd ->
  CStr "LIGCOO" ∈ columns -> CStr "PROTCOO" ∈ columns -> CStr "RESNR" ∈ columns ->
  Forall (fun r => length r = length columns) rows ->
  draw_rows v columns rows color ty res w
  = (Ok (res ++ ((fun row => field columns row "RESNR") <$> rows)),
     upd v (with_calls
              ((fun row => AddCylinder (field columns row "LIGCOO")
                             (field columns row "PROTCOO") color [0.1%float] ty)
                 <$> rows) wd) w).
Proof.
  intros Hv Hl Hp Hr Hall. revert res w wd Hv.
  induction Hall as [| row rows Hrow Hall IH]; intros res w wd Hv.
  - simpl. unfold ret. by rewrite app_nil_r, with_calls_nil, upd_id.
  - cbn [draw_rows]. unfold bind at 1, lift at 1.
    rewrite (row_getitem_ok _ _ _ Hl Hrow).
    unfold bind at 1, lift at 1. rewrite (row_getitem_ok _ _ _ Hp Hrow).
    unfold bind at 1. rewrite (call_at _ _ _ _ Hv).
    unfold bind at 1, lift at 1. rewrite (row_getitem_ok _ _ _ Hr Hrow).
    rewrite (IH _ _ _ (upd_lookup _ _ _ _ Hv)).
    rewrite upd_upd, log_call_with_calls, with_calls_app.
    by rewrite <- app_assoc.
Qed.

Lemma wf_table_cases t :
  wf_table t = true ->
  (∃ columns, t = [columns])
  ∨ (∃ columns data, t = columns :: data ∧ data ≠ []
       ∧ CStr "LIGCOO" ∈ columns ∧ CStr "PROTCOO" ∈ columns ∧ CStr "RESNR" ∈ columns
       ∧ Forall (fun r => length r = length columns) data).
Proof.
  destruct t as [| columns [| r data]]; [done | by left; exists columns |].
  intros Hwf. right. exists columns, (r :: data).
  unfold wf_table in Hwf.
  apply andb_true_iff in Hwf as [Hwf Hrows].
  apply andb_true_iff in Hwf as [Hwf Hres].
  apply andb_true_iff in Hwf as [Hlig Hprot].
  apply bool_decide_eq_true_1 in Hlig, Hprot, Hres.
  repeat split; try done.
  apply Forall_forall. intros x Hx.
  rewrite forallb_forall in Hrows.
  apply list_elem_of_In in Hx. specialize (Hrows x Hx).
  by apply bool_decide_eq_true_1 in Hrows.
Qed.

Lemma py_index_head {A} (x : A) (l : list A) : py_index (x :: l) (PyInt 0) = Ok x.
Proof.
  unfold py_index. cbn [Z.ltb Z.compare]. cbn [Z.leb Z.compare andb].
  replace (0 <? Z.of_nat (length (x :: l))) with true; [done |].
  symmetry. apply Z.ltb_lt. simpl. lia.
Qed.

(** A well-formed entry draws its cylinders and yields its residues. *)
Lemma draw_interactions_cons_wf v e items res w wd :
  widgets w !! v = Some wd ->
  wf_entry e = true ->
  draw_interactions v (e :: items) res w
  = draw_interactions v items (res ++ entry_residues e)
      (upd v (with_calls (entry_cylinders e) wd) w).
Proof.
  intros Hv Hwf. destruct e as [ty t]. unfold wf_entry in Hwf; cbn [fst snd] in Hwf.
  cbn [draw_interactions]. unfold bind at 1, lift at 1.
  unfold entry_cylinders, entry_residues, color_map_getitem; cbn [fst snd].
  destruct (assoc ty color_map) as [color |]; [| done].
  destruct (wf_table_cases _ Hwf) as [[columns ->] | (columns & data & -> & Hne & Hl & Hp & Hr & Hall)].
  - rewrite bool_decide_eq_true_2 by done. simpl.
    by rewrite app_nil_r, with_calls_nil, upd_id.
  - rewrite bool_decide_eq_false_2.
    2:{ simpl. destruct data; [done | simpl; lia]. }
    unfold bind at 1, lift at 1. rewrite py_index_head.
    unfold bind at 1, lift at 1. unfold records. cbn [drop].
    rewrite from_records_rect by done.
    unfold bind at 1. by rewrite (draw_rows_wf _ _ _ _ _ _ _ wd).
Qed.

Lemma draw_interactions_prefix v pre rest res w wd :
  widgets w !! v = Some wd ->
  Forall (fun e => wf_entry e = true) pre ->
  draw_interactions v (pre ++ rest) res w
  = draw_interactions v rest (res ++ (pre ≫= entry_residues))
      (upd v (with_calls (pre ≫= entry_cylinders) wd) w).
Proof.
  intros Hv Hall. revert res w wd Hv.
  induction Hall as [| e pre He Hall IH]; intros res w wd Hv.
  - simpl. by rewrite app_nil_r, with_calls_nil, upd_id.
  - rewrite <- app_comm_cons.
    rewrite (draw_interactions_cons_wf _ _ _ _ _ _ Hv He).
    rewrite (IH _ _ _ (upd_lookup _ _ _ _ Hv)).
    rewrite upd_upd, with_calls_app. simpl. by rewrite <- !app_assoc.
Qed.

Lemma draw_interactions_wf v items res w wd :
  widgets w !! v = Some wd ->
  Forall (fun e => wf_entry e = true) items ->
  draw_interactions v items res w
  = (Ok (res ++ (items ≫= entry_residues)),
     upd v (with_calls (items ≫= entry_cylinders) wd) w).
Proof.
  intros Hv Hall.
  rewrite <- (app_nil_r items) at 1.
  by rewrite (draw_interactions_prefix _ _ _ _ _ _ Hv Hall).
Qed.

(** An entry whose type the colour table does not know raises before
    anything is drawn for it. *)
Lemma draw_interactions_unknown v ty t items res w :
  assoc ty color_map = None ->
  draw_interactions v ((ty, t) :: items) res w = (Raise (KeyError ty), w).
Proof.
  intros Hk. cbn [draw_interactions]. unfold bind, lift, color_map_getitem.
  by rewrite Hk.
Qed.

(** ** The observer of the interactions view *)

(** The widgets once the viewer in the center of the layout, if any, has
    been closed. *)
Definition close_center (layout : AppLayout) (ws : list NGLWidget) : list NGLWidget :=
  match center layout with
  | Some c => <[c := log_call Close (set_closed (ws !!! c))]> ws
  | None => ws
  end.

(** The new viewer when the loop over the interactions starts: the protein
    as component 0, the pose with its affinity label as component 1. *)
Definition prelude_widget (protein_filepath protein_file_extension pose
    docking_poses_file_extension affinity : string) : NGLWidget :=
  {| kwargs := [("height", "860px"); ("default", "True"); ("gui", "True")];
     components :=
       [{| source := FromPath protein_filepath; ext := Some protein_file_extension;
           visible := true |};
        {| source := FromPath pose; ext := Some docking_poses_file_extension;
           visible := true |}];
     calls :=
       [AddComponent (FromPath protein_filepath) (Some protein_file_extension) (Some false);
        AddRepresentation (Some 0%nat) "cartoon" None;
        AddComponent (FromPath pose) (Some docking_poses_file_extension) None;
        AddLabel 1 [affinity] "text" "@0" true "black";
        ComponentCenter 1 500];
     closed := false |}.

(** The world in which the old viewer is closed and [wd] is the new viewer
    in the center of layout [app]. *)
Definition overlay_world (w : World) (app : nat) (layout : AppLayout) (wd : NGLWidget)
    : World :=
  {| widgets := close_center layout (widgets w) ++ [wd];
     layouts := <[app := set_center (Some (length (widgets w))) layout]> (layouts w);
     events := events w ++ [Sleep 1; Sleep 1] |}.

(** The two highlights of the residues (lines 300-310). *)
Definition highlight_calls (interacting_residues : list cell) : list Call :=
  [AddBallAndStick 0 (res_sele interacting_residues) "chainindex" 1.5%float;
   AddBallAndStick 0 (res_sele_nc interacting_residues) "element" 1.5%float].

Lemma close_center_length layout ws : length (close_center layout ws) = length ws.
Proof. unfold close_center. destruct (center layout); [apply length_insert | done]. Qed.

Lemma close_center_run layout w :
  (match center layout with
   | Some old_viewer => close old_viewer
   | None => ret tt
   end) w
  = (Ok tt, set_widgets (close_center layout (widgets w)) w).
Proof.
  unfold close_center. destruct (center layout) as [c |].
  - reflexivity.
  - unfold ret. by destruct w.
Qed.

Lemma interactions_callback_prelude (env : Env) (app : nat)
    (protein_filepath protein_file_extension : string) (filepaths : list string)
    (docking_poses_file_extension : string) (affinities : list string)
    (plip_dicts : list plip_dict) (change : Change) (w : World)
    (layout : AppLayout) (pose affinity : string) (interactions : plip_dict) :
  is_new_value change = true ->
  layouts w !! app = Some layout ->
  source_error env (FromPath protein_filepath) = None ->
  py_index filepaths (new change) = Ok pose ->
  source_error env (FromPath pose) = None ->
  py_index affinities (new change) = Ok affinity ->
  py_index plip_dicts (new change) = Ok interactions ->
  interactions_on_selection_change env app protein_filepath protein_file_extension
    filepaths docking_poses_file_extension affinities plip_dicts change w
  = (do interacting_residues <- draw_interactions (length (widgets w)) interactions [];
     do _ <- call (length (widgets w))
               (AddBallAndStick 0 (res_sele interacting_residues) "chainindex" 1.5%float);
     call (length (widgets w))
       (AddBallAndStick 0 (res_sele_nc interacting_residues) "element" 1.5%float))
      (overlay_world w app layout
         (prelude_widget protein_filepath protein_file_extension pose
            docking_poses_file_extension affinity)).
Proof.
  intros Hg Hlay Hprot Hpose Hsrc Haff Hdict.
  unfold interactions_on_selection_change. rewrite Hg.
  unfold bind at 1, read_layout at 1.
  rewrite (list_lookup_total_correct _ _ _ Hlay).
  unfold bind at 1. rewrite close_center_run.
  unfold overlay_world.
  rewrite <- (close_center_length layout (widgets w)).
  generalize (close_center layout (widgets w)). intros ws.
  unfold bind at 1. rewrite new_widget_run. norm_world.
  unfold bind at 1, on_layout at 1. norm_world.
  rewrite (list_lookup_total_correct _ _ _ Hlay).
  unfold bind at 1. erewrite add_component_at by (done || solve_lookup). norm_world.
  cbn [components length log_call set_components calls kwargs closed Datatypes.app].
  step_call.
  unfold bind at 1, emit at 1. norm_world.
  unfold bind at 1, lift at 1. rewrite Hpose.
  unfold bind at 1. erewrite add_component_at by (done || solve_lookup). norm_world.
  cbn [components length log_call set_components calls kwargs closed Datatypes.app].
  unfold bind at 1, lift at 1. rewrite Haff.
  unfold add_label. step_call.
  unfold bind at 1, emit at 1. norm_world.
  step_call.
  unfold bind at 1, lift at 1. rewrite Hdict.
  cbn [components length log_call set_components calls kwargs closed Datatypes.app].
  rewrite <- app_assoc. reflexivity.
Qed.

Lemma overlay_lookup w app layout wd :
  widgets (overlay_world w app layout wd) !! length (widgets w) = Some wd.
Proof.
  unfold overlay_world; simpl.
  rewrite <- (close_center_length layout (widgets w)). apply lookup_snoc.
Qed.

Lemma upd_overlay w app layout wd wd' :
  upd (length (widgets w)) wd' (overlay_world w app layout wd)
  = overlay_world w app layout wd'.
Proof.
  unfold upd, overlay_world, set_widgets; simpl.
  rewrite <- (close_center_length layout (widgets w)) at 1.
  by rewrite insert_snoc.
Qed.

(** The names of the colour table. *)
Definition interaction_types : list string :=
  [ "hydrophobic"; "hbond"; "waterbridge"; "saltbridge"; "pistacking"; "pication";
    "halogen"; "metal" ].

(** A colour component within [0, 1]. *)
Definition in_unit_interval (x : float) : bool :=
  (PrimFloat.leb 0 x && PrimFloat.leb x 1)%float.

Lemma assoc_None_iff {A} (k : string) (l : list (string * A)) :
  assoc k l = None <-> k ∉ l.*1.
Proof.
  induction l as [| [k' a] l IH]; simpl.
  - split; [intros _; apply not_elem_of_nil | done].
  - case_bool_decide as Hk.
    + subst. split; [done |]. intros Hn. exfalso. apply Hn, list_elem_of_here.
    + rewrite IH. rewrite not_elem_of_cons. cbn [fst]. tauto.
Qed.

Lemma entry_cylinders_name e c :
  c ∈ entry_cylinders e ->
  ∃ p1 p2 color, c = AddCylinder p1 p2 color [0.1%float] e.1
                 ∧ assoc e.1 color_map = Some color.
Proof.
  unfold entry_cylinders, color_map_getitem.
  destruct (assoc e.1 color_map) as [color |] eqn:Hc; [| by intros ?%not_elem_of_nil].
  destruct e.2 as [| columns data]; [by intros ?%not_elem_of_nil |].
  intros (row & -> & _)%list_elem_of_fmap. eauto.
Qed.


(** ** Example data *)

Definition example_env : Env :=
  {| open_error := fun path =>
       if bool_decide (path = "missing.ccp4") then Some (LibraryError "FileNotFoundError")
       else None;
     load_error := fun _ => None;
     fetch_error := fun _ => None |}.

Definition empty_world : World := {| widgets := []; layouts := []; events := [] |}.

Definition example_table : list (list cell) :=
  [ [CStr "RESNR"; CStr "LIGCOO"; CStr "PROTCOO"];
    [CInt 45; CObj "(1.0, 2.0, 3.0)"; CObj "(4.0, 5.0, 6.0)"];
    [CInt 46; CObj "(1.5, 2.5, 3.5)"; CObj "(4.5, 5.5, 6.5)"] ].

Definition example_dicts : list plip_dict :=
  [ [("hbond", example_table); ("metal", [[CStr "RESNR"]])];
    [("hydrophobic", example_table)] ].

Definition example_dicts_unknown : list plip_dict :=
  [ [("hbond", example_table)];
    [("hydrophobic", example_table); ("covalent", example_table)] ].

Definition example_filepaths : list string := ["pose_1.pdbqt"; "pose_2.pdbqt"].
Definition example_labels : list string := ["1 - 1"; "1 - 2"].
Definition example_affinities : list Z := [-8; -7].

(** The world once [interactions] has returned for the example data. *)
Definition example_view : World :=
  (interactions example_env "protein.pdb" "pdb" example_filepaths "pdbqt"
     example_labels example_affinities example_dicts empty_world).2.


(** C9: the colour lookup.  Each of the eight names of the table yields a
    triple whose components lie in [0, 1]; any other key raises [KeyError].
    In the observer the lookup comes first for every entry: when the entries
    before the one with the unknown type are well formed, the observer
    raises [KeyError] for that type, and the new viewer has received the
    cylinders of the entries before it and no cylinder named after the
    unknown type, whatever the length of the key or of its table. *)
Theorem unknown_interaction_type (env : Env) (app : nat)
    (protein_filepath protein_file_extension : string) (filepaths : list string)
    (docking_poses_file_extension : string) (affinities : list string)
    (plip_dicts : list plip_dict) (change : Change) (w : World)
    (layout : AppLayout) (pose affinity : string)
    (pre post : plip_dict) (ty : string) (t : list (list cell)) :
  (∀ key, key ∈ interaction_types ->
     ∃ r g b, color_map_getitem key = Ok [r; g; b]
              ∧ in_unit_interval r = true
              ∧ in_unit_interval g = true
              ∧ in_unit_interval b = true)
  ∧ (∀ key, key ∉ interaction_types -> color_map_getitem key = Raise (KeyError key))
  ∧ (name change = "value" ->
     new change ≠ old change ->
     layouts w !! app = Some layout ->
     source_error env (FromPath protein_filepath) = None ->
     py_index filepaths (new change) = Ok pose ->
     source_error env (FromPath pose) = None ->
     py_index affinities (new change) = Ok affinity ->
     py_index plip_dicts (new change) = Ok (pre ++ (ty, t) :: post) ->
     Forall (fun e => wf_entry e = true) pre ->
     ty ∉ interaction_types ->
     interactions_on_selection_change env app protein_filepath protein_file_extension
       filepaths docking_poses_file_extension affinities plip_dicts change w
     = (Raise (KeyError ty),
        overlay_world w app layout
          (with_calls (pre ≫= entry_cylinders)
             (prelude_widget protein_filepath protein_file_extension pose
                docking_poses_file_extension affinity)))
     ∧ ∀ p1 p2 color radius,
         AddCylinder p1 p2 color radius ty
         ∉ calls (with_calls (pre ≫= entry_cylinders)
                    (prelude_widget protein_filepath protein_file_extension pose
                       docking_poses_file_extension affinity))).
Proof.
  split; [| split].
  - intros key Hkey. unfold interaction_types in Hkey.
    repeat (apply elem_of_cons in Hkey as [-> | Hkey];
            [do 3 eexists; split; [reflexivity | by vm_compute] |]).
    by apply not_elem_of_nil in Hkey.
  - intros key Hkey. unfold color_map_getitem.
    by rewrite (proj2 (assoc_None_iff key color_map) Hkey).
  - intros Hname Hne Hlay Hprot Hpose Hsrc Haff Hdict Hwf Hty.
    assert (Hnone : assoc ty color_map = None) by (by apply assoc_None_iff).
    split.
    + rewrite (interactions_callback_prelude _ _ _ _ _ _ _ _ _ _ layout pose affinity
                 (pre ++ (ty, t) :: post)) by (done || by apply is_new_value_true).
      unfold bind at 1.
      rewrite (draw_interactions_prefix _ _ _ _ _ _ (overlay_lookup _ _ _ _) Hwf).
      rewrite upd_overlay.
      by rewrite (draw_interactions_unknown _ _ _ _ _ _ Hnone).
    + intros p1 p2 color radius Hin. cbn [with_calls calls prelude_widget] in Hin.
      apply elem_of_app in Hin as [Hin | Hin].
      * repeat (apply elem_of_cons in Hin as [Heq | Hin]; [discriminate Heq |]).
        by apply not_elem_of_nil in Hin.
      * apply list_elem_of_bind in Hin as (e & Hc & _).
        apply entry_cylinders_name in Hc as (q1 & q2 & c & Heq & Hsome).
        injection Heq as _ _ _ _ Hn. congruence.
Qed.

Lemma unknown_interaction_type_witness :
  (interactions_on_selection_change example_env 0 "protein.pdb" "pdb"
     example_filepaths "pdbqt" (kcal_per_mol example_affinities) example_dicts_unknown
     {| name := "value"; new := PyInt 1; old := PyInt 0 |} example_view).1
  = Raise (KeyError "covalent").
Proof.
  destruct (unknown_interaction_type example_env 0 "protein.pdb" "pdb"
              example_filepaths "pdbqt" (kcal_per_mol example_affinities) example_dicts_unknown
              {| name := "value"; new := PyInt 1; old := PyInt 0 |} example_view
              (layouts example_view !!! 0%nat) "pose_2.pdbqt" "-7 kcal/mol"
              [("hydrophobic", example_table)] [] "covalent" example_table)
    as (_ & _ & Hrun).
  destruct Hrun as [Hrun _].
  - reflexivity.
  - discriminate.
  - reflexivity.
  - reflexivity.
  - reflexivity.
  - reflexivity.
  - reflexivity.
  - reflexivity.
  - repeat constructor.
  - unfold interaction_types. intros Hin.
    repeat (apply elem_of_cons in Hin as [Heq | Hin]; [discriminate Heq |]).
    by apply not_elem_of_nil in Hin.
  - by rewrite Hrun.
Defined.

(** ** Widget identity *)

(** The reading of C4 that the interactions view refutes: an observer
    leaves the widget in the center of its layout in place and open. *)
Definition keeps_center_widget (app : nat) (m : M unit) : Prop :=
  ∀ w : World,
    center <$> layouts (m w).2 !! app = center <$> layouts w !! app
    ∧ ∀ c, center <$> layouts w !! app = Some (Some c) ->
           closed <$> widgets (m w).2 !! c = closed <$> widgets w !! c.

(** C4, refuted as stated: once the interactions view is up, with widget
    0 in the center of its layout, the next effective selection closes widget
    0 and puts the new widget 1 in its place. *)
Lemma interactions_callback_replaces_widget :
  ¬ keeps_center_widget 0
      (interactions_on_selection_change example_env 0 "protein.pdb" "pdb"
         example_filepaths "pdbqt" (kcal_per_mol example_affinities) example_dicts
         {| name := "value"; new := PyInt 1; old := PyInt 0 |}).
Proof.
  intros H. destruct (H example_view) as [Hcenter _].
  vm_compute in Hcenter. discriminate Hcenter.
Qed.

Lemma touches_interactions_tail (env : Env) (viewer : nat)
    (protein_filepath protein_file_extension : string) (filepaths : list string)
    (docking_poses_file_extension : string) (affinities : list string)
    (plip_dicts : list plip_dict) (v : pyval) :
  touches_only viewer
    (do prot_component <- add_component env viewer (FromPath protein_filepath)
                            (Some protein_file_extension) (Some false);
     do _ <- call viewer (AddRepresentation (Some prot_component) "cartoon" None);
     do _ <- emit (Sleep 1);
     do pose <- lift (py_index filepaths v);
     do lig_component <- add_component env viewer (FromPath pose)
                           (Some docking_poses_file_extension) None;
     do affinity <- lift (py_index affinities v);
     do _ <- add_label viewer lig_component [str affinity];
     do _ <- emit (Sleep 1);
     do _ <- call viewer (ComponentCenter lig_component 500);
     do interactions <- lift (py_index plip_dicts v);
     do interacting_residues <- draw_interactions viewer interactions [];
     do _ <- call viewer (AddBallAndStick prot_component
                            (res_sele interacting_residues) "chainindex" 1.5%float);
     call viewer (AddBallAndStick prot_component
                    (res_sele_nc interacting_residues) "element" 1.5%float)).
Proof.
  unfold add_label.
  repeat first
    [ apply touches_bind; [| intros ?]
    | apply touches_lift
    | apply touches_emit
    | apply touches_add_component
    | apply touches_draw_interactions
    | apply touches_call; discriminate ].
Qed.

(** C4, amended.  The observer of the docking view works on the one viewer
    in place: it creates no widget, closes none, and changes no other widget
    and no layout.  The observer of the interactions view, on an effective
    change, closes the viewer in the center of the layout (if any), creates a
    new widget and puts it in the center; every other widget is left as it
    was.  On any other notification it does nothing. *)
Theorem callbacks_and_the_widget (env : Env) (app viewer : nat)
    (protein_filepath protein_file_extension : string) (filepaths : list string)
    (docking_poses_file_extension : string) (affinities : list string)
    (plip_dicts : list plip_dict) (change : Change) (w : World) (layout : AppLayout) :
  frame viewer w (docking_on_selection_change viewer filepaths change w).2
  ∧ (name change = "value" ->
     new change ≠ old change ->
     layouts w !! app = Some layout ->
     let w' := (interactions_on_selection_change env app protein_filepath
                  protein_file_extension filepaths docking_poses_file_extension
                  affinities plip_dicts change w).2 in
     layouts w' = <[app := set_center (Some (length (widgets w))) layout]> (layouts w)
     ∧ length (widgets w') = S (length (widgets w))
     ∧ (∀ c old_viewer,
          center layout = Some c -> widgets w !! c = Some old_viewer ->
          widgets w' !! c = Some (log_call Close (set_closed old_viewer)))
     ∧ (∀ u, center layout ≠ Some u -> (u < length (widgets w))%nat ->
          widgets w' !! u = widgets w !! u))
  ∧ (name change ≠ "value" ∨ new change = old change ->
     interactions_on_selection_change env app protein_filepath protein_file_extension
       filepaths docking_poses_file_extension affinities plip_dicts change w
     = (Ok tt, w)).
Proof.
  split; [apply touches_docking_callback | split].
  - intros Hname Hne Hlay w'. subst w'.
    match goal with
    | |- context [(?c w).2] => remember (c w) as r eqn:Hr
    end.
    unfold interactions_on_selection_change in Hr.
    rewrite (is_new_value_true _ Hname Hne) in Hr.
    unfold bind at 1, read_layout at 1 in Hr.
    rewrite (list_lookup_total_correct _ _ _ Hlay) in Hr.
    unfold bind at 1 in Hr. rewrite close_center_run in Hr.
    unfold bind at 1 in Hr. rewrite new_widget_run in Hr.
    unfold bind at 1, on_layout at 1 in Hr.
    cbn [widgets layouts events set_widgets set_layouts] in Hr.
    rewrite (list_lookup_total_correct _ _ _ Hlay) in Hr.
    rewrite close_center_length in Hr.
    match type of Hr with
    | _ = ?m ?W =>
        pose proof (touches_interactions_tail env (length (widgets w)) protein_filepath
                      protein_file_extension filepaths docking_poses_file_extension
                      affinities plip_dicts (new change) W) as HF
    end.
    rewrite <- Hr in HF. clear Hr.
    destruct HF as (Hl & Hn & Ho & _).
    cbn [widgets layouts events set_widgets set_layouts] in Hl, Hn, Ho.
    split; [exact Hl |]. split.
    { rewrite Hn, length_app, close_center_length. simpl. lia. }
    split.
    + intros c old_viewer Hc Hold.
      assert (Hlt : (c < length (widgets w))%nat) by (by eapply lookup_lt_Some).
      rewrite Ho by lia.
      rewrite lookup_app_l by (by rewrite close_center_length).
      unfold close_center. rewrite Hc.
      rewrite list_lookup_insert_eq by done.
      by rewrite (list_lookup_total_correct _ _ _ Hold).
    + intros u Hu Hlt. rewrite Ho by lia.
      rewrite lookup_app_l by (by rewrite close_center_length).
      unfold close_center. destruct (center layout) as [c |]; [| done].
      apply list_lookup_insert_ne. congruence.
  - intros H. unfold interactions_on_selection_change.
    by rewrite (is_new_value_false _ H).
Qed.

Lemma callbacks_and_the_widget_witness :
  let w := {| widgets := [{| kwargs := [("height", "860px")]; components := [];
                             calls := []; closed := false |}];
              layouts := [{| left_sidebar :=
                               interactions_selector example_labels example_filepaths;
                             center := Some 0%nat;
                             pane_widths := [1; 6; 1];
                             layout_height := Some "860px" |}];
              events := [] |} in
  let w' := (interactions_on_selection_change example_env 0 "protein.pdb" "pdb"
               example_filepaths "pdbqt" (kcal_per_mol example_affinities) example_dicts
               {| name := "value"; new := PyInt 1; old := PyInt 0 |} w).2 in
  length (widgets w') = 2%nat
  ∧ center <$> layouts w' !! 0%nat = Some (Some 1%nat)
  ∧ closed <$> widgets w' !! 0%nat = Some true.
Proof.
  cbv zeta.
  destruct (callbacks_and_the_widget example_env 0 0 "protein.pdb" "pdb"
              example_filepaths "pdbqt" (kcal_per_mol example_affinities) example_dicts
              {| name := "value"; new := PyInt 1; old := PyInt 0 |}
              {| widgets := [{| kwargs := [("height", "860px")]; components := [];
                                calls := []; closed := false |}];
                 layouts := [{| left_sidebar :=
                                  interactions_selector example_labels example_filepaths;
                                center := Some 0%nat;
                                pane_widths := [1; 6; 1];
                                layout_height := Some "860px" |}];
                 events := [] |}
              {| left_sidebar := interactions_selector example_labels example_filepaths;
                 center := Some 0%nat;
                 pane_widths := [1; 6; 1];
                 layout_height := Some "860px" |})
    as (_ & Hrun & _).
  destruct Hrun as (Hl & Hn & Hc & _); [reflexivity | discriminate | reflexivity |].
  split; [exact Hn |]. split.
  - exact (f_equal (fun l => center <$> l !! 0%nat) Hl).
  - exact (f_equal (fmap closed) (Hc 0%nat _ eq_refl eq_refl)).
Defined.

(** ** Selections in the interactions view *)

Lemma enumerate_lookup {A} (l : list A) (start : Z) (i : nat) :
  enumerate l start !! i = (fun x => (start + Z.of_nat i, x)) <$> l !! i.
Proof.
  revert start i. induction l as [| x l IH]; intros start i; [done |].
  destruct i as [| i]; simpl.
  - by rewrite Z.add_0_r.
  - rewrite IH. destruct (l !! i); simpl; [| done]. do 2 f_equal. lia.
Qed.

Lemma py_index_nat {A} (l : list A) (k : nat) :
  py_index l (PyInt (Z.of_nat k))
  = match l !! k with
    | Some x => Ok x
    | None => Raise IndexError
    end.
Proof.
  unfold py_index.
  rewrite (proj2 (Z.ltb_ge _ _)) by lia.
  rewrite (proj2 (Z.leb_le _ _)) by lia. rewrite Nat2Z.id. simpl.
  destruct (l !! k) as [x |] eqn:Hk.
  - apply lookup_lt_Some in Hk. by rewrite (proj2 (Z.ltb_lt _ _)) by lia.
  - by destruct (_ <? _).
Qed.

(** What a click does in the interactions view: the entry at position [i]
    (counted from 0) carries the value [i + 1], and the observer uses that
    value as a position in the lists, so it reads position [i + 1]. *)
Lemma interactions_click_reads_next (labels filepaths : list string) (i : nat)
    (label : string) (old : pyval) :
  labels !! i = Some label ->
  click (interactions_selector labels filepaths) i old
  = Some {| name := "value"; new := PyInt (Z.of_nat (S i)); old := old |}
  ∧ py_index filepaths (PyInt (Z.of_nat (S i)))
    = match filepaths !! S i with
      | Some pose => Ok pose
      | None => Raise IndexError
      end.
Proof.
  intros Hl. split; [| apply py_index_nat].
  unfold click, interactions_selector; simpl.
  rewrite list_lookup_fmap, enumerate_lookup, Hl. simpl.
  do 3 f_equal. lia.
Qed.

(** C1, on the code: the pairing of labels with poses is off by one.  In
    the example view (two poses), the entries of the selection list carry the
    values 1 and 2.  Clicking the last entry makes the observer index the
    lists at 2 and raise [IndexError]; clicking the first entry makes it load
    the second pose, with the second affinity. *)
Theorem interactions_selection_off_by_one :
  let selector := left_sidebar (layouts example_view !!! 0%nat) in
  let last := {| name := "value"; new := PyInt 2; old := PyInt 1 |} in
  let first := {| name := "value"; new := PyInt 1; old := PyInt 2 |} in
  options selector = [("1 - 1", 1); ("1 - 2", 2)]
  ∧ observers selector
    = [InteractionsObserver 0 "protein.pdb" "pdb" example_filepaths "pdbqt"
         ["-8 kcal/mol"; "-7 kcal/mol"] example_dicts]
  ∧ click selector 1 (PyInt 1) = Some last
  ∧ (∀ o, o ∈ observers selector ->
       (notify example_env o last example_view).1 = Raise IndexError)
  ∧ click selector 0 (PyInt 2) = Some first
  ∧ (∀ o, o ∈ observers selector ->
       let w' := (notify example_env o first example_view).2 in
       source <$> components (widgets w' !!! 1%nat)
       = [FromPath "protein.pdb"; FromPath "pose_2.pdbqt"]
       ∧ AddLabel 1 ["-7 kcal/mol"] "text" "@0" true "black"
         ∈ calls (widgets w' !!! 1%nat)).
Proof.
  intros selector last first.
  assert (Hobs : observers selector
                 = [InteractionsObserver 0 "protein.pdb" "pdb" example_filepaths "pdbqt"
                      ["-8 kcal/mol"; "-7 kcal/mol"] example_dicts])
    by (by vm_compute).
  split; [by vm_compute |]. split; [exact Hobs |].
  split; [by vm_compute |]. split.
  - intros o Ho. rewrite Hobs in Ho. apply list_elem_of_singleton in Ho as ->.
    by vm_compute.
  - split; [by vm_compute |].
    intros o Ho w'. rewrite Hobs in Ho. apply list_elem_of_singleton in Ho as ->.
    split; [by vm_compute |].
    subst w'. vm_compute. do 3 apply list_elem_of_further. apply list_elem_of_here.
Qed.

(** ** Errors of the underlying libraries *)

Lemma protein_propagates_open_error env input_type input_value out w e :
  input_type ≠ "pdb_code" ->
  open_error env input_value = Some e ->
  protein env input_type input_value out w
  = (Raise e, log_event (OpenFile input_value "r") w).
Proof.
  intros Ht Ho. unfold protein, with_open.
  rewrite (bool_decide_eq_false_2 _ Ht).
  unfold bind at 1. unfold bind at 1. unfold emit at 1. by rewrite Ho.
Qed.

Lemma protein_propagates_load_error env input_type input_value out w e :
  input_type ≠ "pdb_code" ->
  open_error env input_value = None ->
  load_error env input_value = Some e ->
  protein env input_type input_value out w
  = (Raise e, log_event (CloseFile input_value)
                (log_event (OpenFile input_value "r") w)).
Proof.
  intros Ht Ho Hl. unfold protein, with_open, show_file, show_structure.
  rewrite (bool_decide_eq_false_2 _ Ht).
  unfold bind at 1. unfold bind at 1. unfold emit at 1. rewrite Ho.
  unfold bind at 1. unfold source_error. by rewrite Hl.
Qed.

Lemma docking_propagates_protein_error {A} `{Str A} env protein_filepath
    protein_file_extension (filepaths : list string) docking_poses_file_extension
    (labels : list string) (affinities : list A) w e :
  source_error env (FromPath protein_filepath) = Some e ->
  (docking env protein_filepath protein_file_extension filepaths
     docking_poses_file_extension labels affinities w).1 = Raise e.
Proof.
  intros He. unfold docking, bind, emit, new_widget, add_component. by rewrite He.
Qed.

(** C7, on the code: [binding_site] is handed a CCP4 path that [open]
    would reject with the library's error; the caller sees the [NameError] of
    line 79 instead, and the file is never opened.  (The same defect as in
    C5.  [protein] and [docking] do propagate the library's error unchanged:
    [protein_propagates_open_error], [protein_propagates_load_error],
    [docking_propagates_protein_error].) *)
Theorem binding_site_masks_file_error :
  open_error example_env "missing.ccp4" = Some (LibraryError "FileNotFoundError")
  ∧ binding_site example_env "pdb" "protein.pdb" "missing.ccp4" empty_world
    = (Raise (NameError "NGLView"), empty_world)
  ∧ protein example_env "ccp4" "missing.ccp4" None empty_world
    = (Raise (LibraryError "FileNotFoundError"),
       log_event (OpenFile "missing.ccp4" "r") empty_world).
Proof. split; [reflexivity |]. split; reflexivity. Qed.

(** ** The docking view as [docking] builds it *)

(** The viewer after one round of the loop over the poses (lines
    149-153). *)
Definition load_pose (extension : string) (wd : NGLWidget) (p : string * string)
    : NGLWidget :=
  log_call (AddLabel (length (components wd)) [p.2] "text" "@0" true "black")
    (log_call (AddComponent (FromPath p.1) (Some extension) None)
       (set_components
          (components wd ++
             [{| source := FromPath p.1; ext := Some extension; visible := true |}])
          wd)).

Definition loaded_poses (extension : string) (pairs : list (string * string))
    (wd : NGLWidget) : NGLWidget :=
  foldl (load_pose extension) wd pairs.

Lemma loaded_poses_length extension pairs wd :
  length (components (loaded_poses extension pairs wd))
  = (length (components wd) + length pairs)%nat.
Proof.
  revert wd. induction pairs as [| p pairs IH]; intros wd; simpl; [lia |].
  rewrite IH. simpl. rewrite length_app. simpl. lia.
Qed.

Lemma load_poses_at env v extension (pairs : list (string * string)) w wd :
  widgets w !! v = Some wd ->
  Forall (fun p => source_error env (FromPath p.1) = None) pairs ->
  for_each pairs
    (fun '(docking_pose_filepath, ligand_label) =>
       do ngl_ligand <- add_component env v (FromPath docking_pose_filepath)
                          (Some extension) None;
       add_label v ngl_ligand [str ligand_label]) w
  = (Ok tt, upd v (loaded_poses extension pairs wd) w).
Proof.
  intros Hv Hall. revert w wd Hv.
  induction Hall as [| [path label] pairs Hp Hall IH]; intros w wd Hv.
  - simpl. unfold ret. by rewrite upd_id.
  - cbn [for_each]. unfold bind at 1. unfold bind at 1.
    rewrite (add_component_at _ _ _ _ _ _ _ Hp Hv).
    unfold add_label. erewrite call_at by (by eapply upd_lookup).
    rewrite upd_upd.
    rewrite (IH _ _ (upd_lookup _ _ _ _ Hv)). by rewrite upd_upd.
Qed.

Lemma load_name_display : load_name "display" = ret (Builtin "display").
Proof. reflexivity. Qed.

Lemma Forall_zip_fst {A B} (P : A -> Prop) (l : list A) (k : list B) :
  Forall P l -> Forall (fun p => P p.1) (zip l k).
Proof.
  intros Hall. revert k. induction Hall as [| x l Hx Hall IH]; intros k; [done |].
  destruct k as [| y k]; [done |]. constructor; [done | apply IH].
Qed.

(** ** [docking]: the set-up before the first selection *)

(** The viewer of the docking view when the poses have been loaded. *)
Definition docking_loaded (protein_filepath protein_file_extension
    docking_poses_file_extension : string) (pairs : list (string * string)) : NGLWidget :=
  loaded_poses docking_poses_file_extension pairs
    {| kwargs := [("height", "860px")];
       components := [{| source := FromPath protein_filepath;
                         ext := Some protein_file_extension; visible := true |}];
       calls := [AddComponent (FromPath protein_filepath)
                   (Some protein_file_extension) None];
       closed := false |}.

(** The world of the docking view when its layout has been displayed and
    the observer registered, with [wd] as the viewer. *)
Definition docking_world (w : World) (wd : NGLWidget) (labels filepaths : list string)
    : World :=
  {| widgets := widgets w ++ [wd];
     layouts := layouts w ++
       [{| left_sidebar :=
             add_observer (DockingObserver (length (widgets w)) filepaths)
               (docking_selector labels filepaths);
           center := Some (length (widgets w));
           pane_widths := [1; 6; 1];
           layout_height := None |}];
     events := events w ++
       [Print "Docking modes"; Print "(CID - mode)"; Display (length (layouts w))] |}.

Lemma docking_world_lookup w wd labels filepaths :
  widgets (docking_world w wd labels filepaths) !! length (widgets w) = Some wd.
Proof. apply lookup_snoc. Qed.

Lemma upd_docking_world w wd wd' labels filepaths :
  upd (length (widgets w)) wd' (docking_world w wd labels filepaths)
  = docking_world w wd' labels filepaths.
Proof. unfold upd, docking_world, set_widgets; simpl. by rewrite insert_snoc. Qed.

Lemma docking_setup {A} `{Str A} (env : Env)
    (protein_filepath protein_file_extension : string) (filepaths : list string)
    (docking_poses_file_extension : string) (labels : list string)
    (affinities : list A) (w : World) :
  source_error env (FromPath protein_filepath) = None ->
  Forall (fun p => source_error env (FromPath p.1) = None)
    (zip filepaths (kcal_per_mol affinities)) ->
  docking env protein_filepath protein_file_extension filepaths
    docking_poses_file_extension labels affinities w
  = (do _ <- docking_on_selection_change (length (widgets w)) filepaths
               {| name := "value"; new := PyInt 1; old := PyNone |};
     ret (length (widgets w)))
      (docking_world w
         (docking_loaded protein_filepath protein_file_extension
            docking_poses_file_extension (zip filepaths (kcal_per_mol affinities)))
         labels filepaths).
Proof.
  intros Hprot Hposes. unfold docking.
  unfold bind at 1, emit at 1. unfold bind at 1, emit at 1.
  unfold bind at 1. rewrite new_widget_run. norm_world.
  unfold bind at 1. erewrite add_component_at by (done || solve_lookup). norm_world.
  cbn [components length log_call set_components calls kwargs closed Datatypes.app].
  unfold bind at 1.
  erewrite (load_poses_at env _ _ (zip filepaths (kcal_per_mol affinities)));
    [| solve_lookup | exact Hposes].
  norm_world.
  unfold bind at 1. rewrite load_name_display. unfold ret at 1.
  unfold bind at 1, new_layout at 1. norm_world.
  unfold bind at 1, emit at 1. norm_world.
  unfold bind at 1, observe at 1, on_layout at 1. norm_world.
  rewrite !lookup_total_snoc. rewrite <- !app_assoc. reflexivity.
Qed.

Lemma hide_out_of_range v pre i post w wd :
  widgets w !! v = Some wd ->
  Forall (fun j => (j < length (components wd))%nat) pre ->
  ¬ (i < length (components wd))%nat ->
  hide v (pre ++ i :: post) w = (Raise IndexError, upd v (hidden pre wd) w).
Proof.
  revert w wd. induction pre as [| j pre IH]; intros w wd Hv Hall Hi.
  - unfold hide; simpl. unfold bind at 1.
    rewrite (on_widget_at _ _ _ _ Hv).
    rewrite (bool_decide_eq_false_2 _ Hi). simpl. done.
  - apply Forall_cons in Hall as [Hj Hall].
    unfold hide in *. simpl. unfold bind at 1.
    rewrite (on_widget_at _ _ _ _ Hv).
    rewrite (bool_decide_eq_true_2 _ Hj). simpl.
    rewrite (IH _ (hide_step wd j)).
    + by rewrite upd_upd.
    + by apply (upd_lookup _ _ _ _ Hv).
    + simpl. by rewrite length_alter.
    + simpl. by rewrite length_alter.
Qed.

Lemma find_all_false {A} (P : A -> bool) (l : list A) :
  Forall (fun x => P x = false) l -> find P l = None.
Proof. induction 1 as [| x l Hx _ IH]; simpl; [done | by rewrite Hx]. Qed.

Lemma getattr_component_missing v w wd (i : Z) :
  widgets w !! v = Some wd ->
  ¬ (0 <= i < Z.of_nat (length (components wd))) ->
  getattr_component v ("component_" +:+ pretty i) w
  = (Raise (AttributeError ("component_" +:+ pretty i)), w).
Proof.
  intros Hv Hi. unfold getattr_component, bind.
  rewrite (read_widget_at _ _ _ Hv).
  rewrite find_all_false; [done |].
  apply Forall_forall. intros j Hj. apply elem_of_seq in Hj.
  apply bool_decide_eq_false_2. intros Heq.
  apply (inj (String.append "component_")) in Heq.
  apply (inj pretty) in Heq. lia.
Qed.

(** The viewer after the observer of the docking view has selected the
    component [i] among [n] poses. *)
Definition select_pose (n : nat) (i : Z) (wd : NGLWidget) : NGLWidget :=
  let k := Z.to_nat i in
  let wd1 := hidden (seq 1 n) wd in
  log_call (ExecuteJs (RESIDUES_AROUND (pretty i) "6"))
    (log_call (ComponentCenter k 500)
       (log_call (SetVisibility k true)
          (set_components (alter (set_visible true) k (components wd1)) wd1))).

Lemma docking_callback_run (viewer : nat) (filepaths : list string)
    (change : Change) (w : World) (wd : NGLWidget) (i : Z) :
  widgets w !! viewer = Some wd ->
  length (components wd) = S (length filepaths) ->
  name change = "value" ->
  new change = PyInt i ->
  new change ≠ old change ->
  0 <= i <= Z.of_nat (length filepaths) ->
  docking_on_selection_change viewer filepaths change w
  = (Ok tt, upd viewer (select_pose (length filepaths) i wd) w).
Proof.
  intros Hv Hlen Hname Hnew Hne Hi.
  set (k := Z.to_nat i).
  assert (Hk : i = Z.of_nat k) by (unfold k; lia).
  set (wd1 := hidden (seq 1 (length filepaths)) wd).
  assert (Hlen1 : length (components wd1) = S (length filepaths))
    by (unfold wd1; by rewrite hidden_length).
  unfold docking_on_selection_change.
  rewrite (is_new_value_true _ Hname Hne). rewrite Hnew.
  unfold bind at 1. rewrite (hide_at _ _ _ wd Hv).
  2:{ unfold range1. apply Forall_forall. intros j Hj.
      apply elem_of_seq in Hj. lia. }
  fold wd1. unfold bind at 1.
  change (str (PyInt i)) with (pretty i). rewrite Hk at 1.
  rewrite (getattr_component_at _ _ wd1 k); [| by eapply upd_lookup | lia].
  unfold bind at 1. rewrite (show_at _ _ _ wd1) by (by eapply upd_lookup).
  rewrite upd_upd.
  unfold bind at 1. erewrite call_at by (by eapply upd_lookup).
  rewrite upd_upd.
  erewrite call_at by (by eapply upd_lookup).
  by rewrite upd_upd.
Qed.

Lemma hidden_sources indices wd :
  source <$> components (hidden indices wd) = source <$> components wd.
Proof.
  revert wd. induction indices as [| i l IH]; intros wd; [done |].
  change (hidden (i :: l) wd) with (hidden l (hide_step wd i)).
  rewrite IH. cbn [hide_step log_call set_components components].
  rewrite (list_fmap_alter source (set_visible false) id).
  - by apply list_alter_id.
  - by apply Forall_true.
Qed.

Lemma select_pose_sources n i wd :
  source <$> components (select_pose n i wd) = source <$> components wd.
Proof.
  unfold select_pose. cbn [log_call set_components components].
  rewrite (list_fmap_alter source (set_visible true) id).
  - rewrite list_alter_id by done. apply hidden_sources.
  - by apply Forall_true.
Qed.

Lemma select_pose_length n i wd :
  length (components (select_pose n i wd)) = length (components wd).
Proof.
  unfold select_pose. cbn [log_call set_components components].
  by rewrite length_alter, hidden_length.
Qed.

Lemma select_pose_calls n i wd :
  calls (select_pose n i wd)
  = calls wd ++ ((fun j => SetVisibility j false) <$> seq 1 n)
      ++ [SetVisibility (Z.to_nat i) true; ComponentCenter (Z.to_nat i) 500;
          ExecuteJs (RESIDUES_AROUND (pretty i) "6")].
Proof.
  unfold select_pose. cbn [log_call set_components calls].
  rewrite hidden_calls. by rewrite <- !app_assoc.
Qed.

Lemma select_pose_visible n i wd j :
  (1 <= j <= n)%nat -> (j < length (components wd))%nat ->
  visible <$> components (select_pose n i wd) !! j = Some (bool_decide (j = Z.to_nat i)).
Proof.
  intros Hj Hlt. unfold select_pose. cbn [log_call set_components components].
  rewrite list_lookup_alter.
  destruct (lookup_lt_is_Some_2 _ _ Hlt) as [c Hc].
  assert (Hvis : visible <$> components (hidden (seq 1 n) wd) !! j = Some false).
  { rewrite hidden_visible, Hc. simpl.
    rewrite bool_decide_eq_true_2; [done |]. apply elem_of_seq. lia. }
  assert (Hc1 : ∃ c1, components (hidden (seq 1 n) wd) !! j = Some c1
                      ∧ visible c1 = false).
  { destruct (components (hidden (seq 1 n) wd) !! j) as [c1 |]; simpl in Hvis;
      [| discriminate Hvis].
    exists c1. split; [done | congruence]. }
  destruct Hc1 as (c1 & Hc1 & Hv1).
  destruct (decide (Z.to_nat i = j)) as [Heq | Hkj].
  - rewrite Heq, Hc1. simpl. by rewrite bool_decide_eq_true_2.
  - rewrite Hc1. simpl. rewrite Hv1. by rewrite bool_decide_eq_false_2.
Qed.

Lemma loaded_poses_sources extension pairs wd :
  source <$> components (loaded_poses extension pairs wd)
  = (source <$> components wd) ++ ((fun p => FromPath p.1) <$> pairs).
Proof.
  revert wd. induction pairs as [| p pairs IH]; intros wd; simpl.
  - by rewrite app_nil_r.
  - rewrite IH. simpl. rewrite fmap_app. simpl. by rewrite <- app_assoc.
Qed.

Lemma zip_fst_fmap {A B} (l : list A) (k : list B) :
  (length l <= length k)%nat -> (zip l k).*1 = l.
Proof.
  revert k. induction l as [| x l IH]; intros k Hlen; [done |].
  destruct k as [| y k]; simpl in *; [lia |]. f_equal. apply IH. lia.
Qed.

(** X1: with the protein and every pose loading and an affinity for every
    pose (at least one pose), [docking] prints its two header lines, returns
    a new viewer whose components are the protein followed by the poses in
    the order of the list, of which only the first pose is visible, and
    displays a layout with that viewer in its center and, on its left, the
    selection list with the observer registered. *)
Theorem docking_builds_view {A} `{Str A} (env : Env)
    (protein_filepath protein_file_extension : string) (filepaths : list string)
    (docking_poses_file_extension : string) (labels : list string)
    (affinities : list A) (w : World) :
  source_error env (FromPath protein_filepath) = None ->
  Forall (fun path => source_error env (FromPath path) = None) filepaths ->
  (1 <= length filepaths <= length affinities)%nat ->
  ∃ wd : NGLWidget,
    docking env protein_filepath protein_file_extension filepaths
      docking_poses_file_extension labels affinities w
    = (Ok (length (widgets w)), docking_world w wd labels filepaths)
    ∧ source <$> components wd
      = FromPath protein_filepath :: (FromPath <$> filepaths)
    ∧ ∀ j : nat, (1 <= j <= length filepaths)%nat ->
        visible <$> components wd !! j = Some (bool_decide (j = 1%nat)).
Proof.
  intros Hprot Hposes Hlen.
  set (pairs := zip filepaths (kcal_per_mol affinities)).
  assert (Hfst : pairs.*1 = filepaths).
  { apply zip_fst_fmap. unfold kcal_per_mol. rewrite length_fmap. lia. }
  set (wd1 := docking_loaded protein_filepath protein_file_extension
                docking_poses_file_extension pairs).
  assert (Hsrc : source <$> components wd1
                 = FromPath protein_filepath :: (FromPath <$> filepaths)).
  { unfold wd1, docking_loaded. rewrite loaded_poses_sources. simpl.
    by rewrite <- Hfst, <- list_fmap_compose. }
  assert (Hlen1 : length (components wd1) = S (length filepaths)).
  { rewrite <- (length_fmap source), Hsrc. simpl. by rewrite length_fmap. }
  exists (select_pose (length filepaths) 1 wd1). split; [| split].
  - rewrite docking_setup; [| done |].
    2:{ fold pairs. rewrite <- Hfst in Hposes.
        apply Forall_fmap in Hposes. exact Hposes. }
    fold pairs. fold wd1. unfold bind at 1.
    rewrite (docking_callback_run _ _ _ _ wd1 1);
      [| apply docking_world_lookup | done | done | done | discriminate | lia].
    unfold ret. by rewrite upd_docking_world.
  - by rewrite select_pose_sources.
  - intros j Hj. rewrite select_pose_visible by lia. done.
Qed.

Lemma docking_builds_view_witness :
  (docking example_env "protein.pdb" "pdb" example_filepaths "pdbqt" example_labels
     example_affinities empty_world).1 = Ok 0%nat.
Proof.
  destruct (docking_builds_view example_env "protein.pdb" "pdb" example_filepaths
              "pdbqt" example_labels example_affinities empty_world)
    as (wd & Hrun & _).
  - reflexivity.
  - repeat constructor.
  - simpl. lia.
  - by rewrite Hrun.
Defined.

Lemma docking_callback_no_component (viewer : nat) (filepaths : list string)
    (change : Change) (w : World) (wd : NGLWidget) (i : Z) :
  widgets w !! viewer = Some wd ->
  length (components wd) = S (length filepaths) ->
  name change = "value" ->
  new change = PyInt i ->
  new change ≠ old change ->
  ¬ (0 <= i <= Z.of_nat (length filepaths)) ->
  docking_on_selection_change viewer filepaths change w
  = (Raise (AttributeError ("component_" +:+ pretty i)),
     upd viewer (hidden (seq 1 (length filepaths)) wd) w).
Proof.
  intros Hv Hlen Hname Hnew Hne Hi.
  unfold docking_on_selection_change.
  rewrite (is_new_value_true _ Hname Hne). rewrite Hnew.
  unfold bind at 1. rewrite (hide_at _ _ _ wd Hv).
  2:{ unfold range1. apply Forall_forall. intros j Hj.
      apply elem_of_seq in Hj. lia. }
  unfold bind at 1. change (str (PyInt i)) with (pretty i).
  rewrite (getattr_component_missing _ _ (hidden (seq 1 (length filepaths)) wd));
    [done | by eapply upd_lookup | rewrite hidden_length; lia].
Qed.

(** X2: with no poses at all, [docking] still builds and displays the
    view, but the first selection it triggers itself (line 186, value 1)
    finds no attribute [component_1] on the viewer: [docking] raises
    [AttributeError] instead of returning. *)
Theorem docking_without_poses {A} `{Str A} (env : Env)
    (protein_filepath protein_file_extension docking_poses_file_extension : string)
    (labels : list string) (affinities : list A) (w : World) :
  source_error env (FromPath protein_filepath) = None ->
  docking env protein_filepath protein_file_extension [] docking_poses_file_extension
    labels affinities w
  = (Raise (AttributeError "component_1"),
     docking_world w
       (docking_loaded protein_filepath protein_file_extension
          docking_poses_file_extension []) labels []).
Proof.
  intros Hprot. rewrite docking_setup by done. cbn [zip zip_with].
  unfold bind at 1.
  rewrite (docking_callback_no_component _ _ _ _ _ 1 (docking_world_lookup _ _ _ _));
    [| reflexivity | reflexivity | reflexivity | discriminate | simpl; lia].
  by rewrite upd_docking_world.
Qed.

Lemma docking_without_poses_witness :
  (docking example_env "protein.pdb" "pdb" [] "pdbqt" example_labels
     example_affinities empty_world).1 = Raise (AttributeError "component_1").
Proof.
  by rewrite (docking_without_poses example_env "protein.pdb" "pdb" "pdbqt"
                example_labels example_affinities empty_world eq_refl).
Defined.

(** X3: the poses are loaded by [zip] with the affinities, so with fewer
    affinities than pose paths only that many poses become components; the
    observer then hides components [1..n] for the [n] paths, and the library
    raises [IndexError] at the first index without a component.  [docking]
    raises it too, with every loaded pose hidden. *)
Theorem docking_fewer_affinities {A} `{Str A} (env : Env)
    (protein_filepath protein_file_extension : string) (filepaths : list string)
    (docking_poses_file_extension : string) (labels : list string)
    (affinities : list A) (w : World) :
  source_error env (FromPath protein_filepath) = None ->
  Forall (fun path => source_error env (FromPath path) = None) filepaths ->
  (length affinities < length filepaths)%nat ->
  docking env protein_filepath protein_file_extension filepaths
    docking_poses_file_extension labels affinities w
  = (Raise IndexError,
     docking_world w
       (hidden (seq 1 (length affinities))
          (docking_loaded protein_filepath protein_file_extension
             docking_poses_file_extension (zip filepaths (kcal_per_mol affinities))))
       labels filepaths).
Proof.
  intros Hprot Hposes Hlen.
  set (pairs := zip filepaths (kcal_per_mol affinities)).
  set (wd1 := docking_loaded protein_filepath protein_file_extension
                docking_poses_file_extension pairs).
  assert (Hlen1 : length (components wd1) = S (length affinities)).
  { unfold wd1, docking_loaded. rewrite loaded_poses_length. unfold pairs, kcal_per_mol.
    rewrite length_zip, length_fmap. simpl. lia. }
  rewrite docking_setup; [| done |].
  2:{ apply Forall_forall. intros [path label] Hin. apply elem_of_zip_l in Hin.
      rewrite Forall_forall in Hposes. by apply Hposes. }
  fold pairs. fold wd1.
  unfold bind at 1. unfold docking_on_selection_change.
  rewrite is_new_value_true by (reflexivity || discriminate). unfold range1.
  replace (length filepaths)
    with (length affinities + S (length filepaths - S (length affinities)))%nat by lia.
  rewrite seq_app. cbn [seq].
  unfold bind at 1.
  rewrite (hide_out_of_range _ _ _ _ _ wd1 (docking_world_lookup _ _ _ _)).
  - rewrite upd_docking_world.
    by replace (length affinities + S (length filepaths - S (length affinities)))%nat
         with (length filepaths) by lia.
  - apply Forall_forall. intros j Hj. apply elem_of_seq in Hj. lia.
  - lia.
Qed.

Lemma docking_fewer_affinities_witness :
  (docking example_env "protein.pdb" "pdb" example_filepaths "pdbqt" example_labels
     [-8] empty_world).1 = Raise IndexError.
Proof.
  rewrite (docking_fewer_affinities example_env "protein.pdb" "pdb" example_filepaths
             "pdbqt" example_labels [-8] empty_world).
  - reflexivity.
  - reflexivity.
  - repeat constructor.
  - simpl. lia.
Defined.

(** ** More on the observer of the docking view *)

(** X4: an effective change whose new value names no component of the
    viewer (an integer outside [0..n]) is not harmless: the observer has
    already hidden every pose when the attribute lookup raises
    [AttributeError], so the view is left with no pose visible. *)
Theorem docking_callback_unknown_value (viewer : nat) (filepaths : list string)
    (change : Change) (w : World) (wd : NGLWidget) (i : Z) :
  widgets w !! viewer = Some wd ->
  length (components wd) = S (length filepaths) ->
  name change = "value" ->
  new change = PyInt i ->
  new change ≠ old change ->
  ¬ (0 <= i <= Z.of_nat (length filepaths)) ->
  ∃ wd' : NGLWidget,
    docking_on_selection_change viewer filepaths change w
    = (Raise (AttributeError ("component_" +:+ pretty i)), upd viewer wd' w)
    ∧ calls wd' = calls wd ++ ((fun j => SetVisibility j false) <$> seq 1 (length filepaths))
    ∧ ∀ j : nat, (1 <= j <= length filepaths)%nat ->
        visible <$> components wd' !! j = Some false.
Proof.
  intros Hv Hlen Hname Hnew Hne Hi.
  exists (hidden (seq 1 (length filepaths)) wd). split; [| split].
  - by apply docking_callback_no_component.
  - apply hidden_calls.
  - intros j Hj. rewrite hidden_visible.
    assert (Hjl : (j < length (components wd))%nat) by lia.
    destruct (lookup_lt_is_Some_2 _ _ Hjl) as [c Hc]. rewrite Hc. simpl.
    rewrite bool_decide_eq_true_2; [done |]. apply elem_of_seq. lia.
Qed.

Lemma docking_callback_unknown_value_witness :
  let w := {| widgets :=
                [{| kwargs := [("height", "860px")];
                    components :=
                      [{| source := FromPath "protein.pdb"; ext := Some "pdb";
                          visible := true |};
                       {| source := FromPath "a.pdbqt"; ext := Some "pdbqt";
                          visible := true |}];
                    calls := []; closed := false |}];
              layouts := []; events := [] |} in
  (docking_on_selection_change 0 ["a.pdbqt"]
     {| name := "value"; new := PyInt 2; old := PyInt 1 |} w).1
  = Raise (AttributeError "component_2").
Proof.
  intros w.
  destruct (docking_callback_unknown_value 0 ["a.pdbqt"]
              {| name := "value"; new := PyInt 2; old := PyInt 1 |} w
              (widgets w !!! 0%nat) 2)
    as (wd' & Hrun & _).
  - reflexivity.
  - reflexivity.
  - reflexivity.
  - reflexivity.
  - discriminate.
  - simpl. lia.
  - rewrite Hrun. reflexivity.
Defined.

(** X5: selections compose.  After an effective selection of pose [i]
    followed by an effective selection of pose [j], pose [j] is the only
    visible pose, the components still come from the same sources, and the
    viewer has logged the two rounds of calls in order. *)
Theorem docking_two_selections (viewer : nat) (filepaths : list string)
    (change1 change2 : Change) (w : World) (wd : NGLWidget) (i j : Z) :
  widgets w !! viewer = Some wd ->
  length (components wd) = S (length filepaths) ->
  name change1 = "value" -> new change1 = PyInt i -> new change1 ≠ old change1 ->
  name change2 = "value" -> new change2 = PyInt j -> new change2 ≠ old change2 ->
  1 <= i <= Z.of_nat (length filepaths) ->
  1 <= j <= Z.of_nat (length filepaths) ->
  ∃ wd' : NGLWidget,
    (do _ <- docking_on_selection_change viewer filepaths change1;
     docking_on_selection_change viewer filepaths change2) w
    = (Ok tt, upd viewer wd' w)
    ∧ (∀ p : nat, (1 <= p <= length filepaths)%nat ->
         visible <$> components wd' !! p = Some (bool_decide (p = Z.to_nat j)))
    ∧ source <$> components wd' = source <$> components wd
    ∧ calls wd'
      = calls wd
        ++ (((fun p => SetVisibility p false) <$> seq 1 (length filepaths))
            ++ [SetVisibility (Z.to_nat i) true; ComponentCenter (Z.to_nat i) 500;
                ExecuteJs (RESIDUES_AROUND (pretty i) "6")])
        ++ (((fun p => SetVisibility p false) <$> seq 1 (length filepaths))
            ++ [SetVisibility (Z.to_nat j) true; ComponentCenter (Z.to_nat j) 500;
                ExecuteJs (RESIDUES_AROUND (pretty j) "6")]).
Proof.
  intros Hv Hlen Hn1 Hi1 Hne1 Hn2 Hj2 Hne2 Hi Hj.
  set (n := length filepaths) in *.
  exists (select_pose n j (select_pose n i wd)). split; [| split; [| split]].
  - unfold bind at 1.
    rewrite (docking_callback_run _ _ _ _ wd i) by (done || lia).
    rewrite (docking_callback_run _ _ _ _ (select_pose n i wd) j);
      [by rewrite upd_upd | by eapply upd_lookup | by rewrite select_pose_length
      | done | done | done | lia].
  - intros p Hp. apply select_pose_visible; [done |].
    rewrite select_pose_length. lia.
  - by rewrite !select_pose_sources.
  - rewrite !select_pose_calls. by rewrite <- !app_assoc.
Qed.

Lemma docking_two_selections_witness :
  let w := {| widgets :=
                [{| kwargs := [("height", "860px")];
                    components :=
                      [{| source := FromPath "protein.pdb"; ext := Some "pdb";
                          visible := true |};
                       {| source := FromPath "a.pdbqt"; ext := Some "pdbqt";
                          visible := true |};
                       {| source := FromPath "b.pdbqt"; ext := Some "pdbqt";
                          visible := true |}];
                    calls := []; closed := false |}];
              layouts := []; events := [] |} in
  ((do _ <- docking_on_selection_change 0 ["a.pdbqt"; "b.pdbqt"]
              {| name := "value"; new := PyInt 2; old := PyInt 1 |};
    docking_on_selection_change 0 ["a.pdbqt"; "b.pdbqt"]
      {| name := "value"; new := PyInt 1; old := PyInt 2 |}) w).1
  = Ok tt.
Proof.
  intros w.
  destruct (docking_two_selections 0 ["a.pdbqt"; "b.pdbqt"]
              {| name := "value"; new := PyInt 2; old := PyInt 1 |}
              {| name := "value"; new := PyInt 1; old := PyInt 2 |} w
              (widgets w !!! 0%nat) 2 1)
    as (wd' & Hrun & _).
  - reflexivity.
  - reflexivity.
  - reflexivity.
  - reflexivity.
  - discriminate.
  - reflexivity.
  - reflexivity.
  - discriminate.
  - simpl. lia.
  - simpl. lia.
  - rewrite Hrun. reflexivity.
Defined.

Lemma docking_click (labels filepaths : list string) (i : nat) (label : string)
    (old : pyval) :
  labels !! i = Some label ->
  click (docking_selector labels filepaths) i old
  = Some {| name := "value"; new := PyInt (Z.of_nat (S i)); old := old |}.
Proof.
  intros Hl. unfold click, docking_selector; simpl.
  rewrite list_lookup_fmap, enumerate_lookup, Hl. simpl.
  do 3 f_equal. lia.
Qed.

(** X6: in the docking view the pairing of labels with poses is right.
    Once [docking] has built the view, a click on the entry at position [i]
    of the selection list (another entry being selected) makes the registered
    observer show the component loaded from the [i]-th pose path, and that
    component only. *)
Theorem docking_click_shows_pose {A} `{Str A} (env : Env)
    (protein_filepath protein_file_extension : string) (filepaths : list string)
    (docking_poses_file_extension : string) (labels : list string)
    (affinities : list A) (w : World) (i : nat) (label pose : string) (old : pyval) :
  source_error env (FromPath protein_filepath) = None ->
  Forall (fun path => source_error env (FromPath path) = None) filepaths ->
  (length filepaths <= length affinities)%nat ->
  labels !! i = Some label ->
  filepaths !! i = Some pose ->
  old ≠ PyInt (Z.of_nat (S i)) ->
  let view := docking env protein_filepath protein_file_extension filepaths
                docking_poses_file_extension labels affinities w in
  let viewer := length (widgets w) in
  ∃ (change : Change) (wd' : NGLWidget),
    view.1 = Ok viewer
    ∧ observers (left_sidebar (layouts view.2 !!! length (layouts w)))
      = [DockingObserver viewer filepaths]
    ∧ click (left_sidebar (layouts view.2 !!! length (layouts w))) i old = Some change
    ∧ notify env (DockingObserver viewer filepaths) change view.2
      = (Ok tt, upd viewer wd' view.2)
    ∧ source <$> components wd' !! S i = Some (FromPath pose)
    ∧ ∀ j : nat, (1 <= j <= length filepaths)%nat ->
        visible <$> components wd' !! j = Some (bool_decide (j = S i)).
Proof.
  intros Hprot Hposes Hlen Hlabel Hpose Hold view viewer.
  assert (Hi : (i < length filepaths)%nat) by (by eapply lookup_lt_Some).
  set (pairs := zip filepaths (kcal_per_mol affinities)).
  assert (Hfst : pairs.*1 = filepaths).
  { apply zip_fst_fmap. unfold kcal_per_mol. rewrite length_fmap. lia. }
  set (wd1 := docking_loaded protein_filepath protein_file_extension
                docking_poses_file_extension pairs).
  assert (Hsrc : source <$> components wd1
                 = FromPath protein_filepath :: (FromPath <$> filepaths)).
  { unfold wd1, docking_loaded. rewrite loaded_poses_sources. simpl.
    by rewrite <- Hfst, <- list_fmap_compose. }
  assert (Hlen1 : length (components wd1) = S (length filepaths)).
  { rewrite <- (length_fmap source), Hsrc. simpl. by rewrite length_fmap. }
  set (wd2 := select_pose (length filepaths) 1 wd1).
  assert (Hview : view = (Ok viewer, docking_world w wd2 labels filepaths)).
  { unfold view. rewrite docking_setup; [| done |].
    2:{ fold pairs. rewrite <- Hfst in Hposes.
        apply Forall_fmap in Hposes. exact Hposes. }
    fold pairs. fold wd1. unfold bind at 1.
    rewrite (docking_callback_run _ _ _ _ wd1 1);
      [| apply docking_world_lookup | done | done | done | discriminate | lia].
    unfold ret. by rewrite upd_docking_world. }
  rewrite Hview. cbn [fst snd].
  assert (Hside : left_sidebar (layouts (docking_world w wd2 labels filepaths)
                                  !!! length (layouts w))
                  = add_observer (DockingObserver viewer filepaths)
                      (docking_selector labels filepaths)).
  { unfold docking_world; cbn [layouts]. by rewrite lookup_total_snoc. }
  rewrite Hside.
  exists {| name := "value"; new := PyInt (Z.of_nat (S i)); old := old |},
         (select_pose (length filepaths) (Z.of_nat (S i)) wd2).
  split; [done |]. split; [done |]. split; [| split; [| split]].
  - exact (docking_click labels filepaths i label old Hlabel).
  - cbn [notify].
    apply (docking_callback_run _ _ _ _ wd2 (Z.of_nat (S i)));
      [apply docking_world_lookup | by unfold wd2; rewrite select_pose_length
      | done | done | by intros [= ?] | lia].
  - rewrite <- list_lookup_fmap. unfold wd2. rewrite !select_pose_sources, Hsrc.
    simpl. by rewrite list_lookup_fmap, Hpose.
  - intros j Hj. rewrite select_pose_visible;
      [by rewrite Nat2Z.id | done | unfold wd2; rewrite select_pose_length; lia].
Qed.

Lemma docking_click_shows_pose_witness :
  ∃ change : Change,
    click (left_sidebar
             (layouts (docking example_env "protein.pdb" "pdb" example_filepaths "pdbqt"
                         example_labels example_affinities empty_world).2 !!! 0%nat))
      1 (PyInt 1) = Some change.
Proof.
  destruct (docking_click_shows_pose example_env "protein.pdb" "pdb" example_filepaths
              "pdbqt" example_labels example_affinities empty_world 1 "1 - 2"
              "pose_2.pdbqt" (PyInt 1))
    as (change & wd' & _ & _ & Hclick & _).
  - reflexivity.
  - repeat constructor.
  - simpl. lia.
  - reflexivity.
  - reflexivity.
  - discriminate.
  - exists change. exact Hclick.
Defined.

(** ** Edge cases of the interaction overlay *)

Lemma color_map_names : color_map.*1 = interaction_types.
Proof. reflexivity. Qed.

Lemma color_map_known ty :
  ty ∈ interaction_types -> ∃ color, color_map_getitem ty = Ok color.
Proof.
  intros Hty. unfold color_map_getitem.
  destruct (assoc ty color_map) as [color |] eqn:Hc; [by exists color |].
  apply assoc_None_iff in Hc. by rewrite color_map_names in Hc.
Qed.

Lemma row_getitem_missing columns row label :
  CStr label ∉ columns -> row_getitem columns row label = Raise (KeyError label).
Proof.
  intros Hn. unfold row_getitem.
  destruct (list_find _ columns) as [[i c] |] eqn:Hfind; [| done].
  apply list_find_Some in Hfind as (Hi & -> & _).
  exfalso. apply Hn. by eapply list_elem_of_lookup_2.
Qed.

(** The observer when the loop over the interactions raises [x] at the
    entries [rest], having made the calls [cs] for them. *)
Lemma interactions_callback_loop_raises (env : Env) (app : nat)
    (protein_filepath protein_file_extension : string) (filepaths : list string)
    (docking_poses_file_extension : string) (affinities : list string)
    (plip_dicts : list plip_dict) (change : Change) (w : World)
    (layout : AppLayout) (pose affinity : string)
    (pre rest : plip_dict) (x : exn) (cs : list Call) :
  name change = "value" ->
  new change ≠ old change ->
  layouts w !! app = Some layout ->
  source_error env (FromPath protein_filepath) = None ->
  py_index filepaths (new change) = Ok pose ->
  source_error env (FromPath pose) = None ->
  py_index affinities (new change) = Ok affinity ->
  py_index plip_dicts (new change) = Ok (pre ++ rest) ->
  Forall (fun e => wf_entry e = true) pre ->
  (∀ v res w' wd', widgets w' !! v = Some wd' ->
     draw_interactions v rest res w' = (Raise x, upd v (with_calls cs wd') w')) ->
  interactions_on_selection_change env app protein_filepath protein_file_extension
    filepaths docking_poses_file_extension affinities plip_dicts change w
  = (Raise x,
     overlay_world w app layout
       (with_calls ((pre ≫= entry_cylinders) ++ cs)
          (prelude_widget protein_filepath protein_file_extension pose
             docking_poses_file_extension affinity))).
Proof.
  intros Hname Hne Hlay Hprot Hpose Hsrc Haff Hdict Hwf Hrest.
  rewrite (interactions_callback_prelude _ _ _ _ _ _ _ _ _ _ layout pose affinity
             (pre ++ rest)) by (done || by apply is_new_value_true).
  unfold bind at 1.
  rewrite (draw_interactions_prefix _ _ _ _ _ _ (overlay_lookup _ _ _ _) Hwf).
  rewrite upd_overlay.
  rewrite (Hrest _ _ _ _ (overlay_lookup _ _ _ _)).
  by rewrite upd_overlay, with_calls_app.
Qed.

(** X7: an interaction type whose list is empty (not even the tuple of
    column labels) makes the observer raise [IndexError] at
    [interaction_list[0]]; the cylinders of the entries before it have been
    drawn, the residues are never highlighted. *)
Theorem overlay_empty_table (env : Env) (app : nat)
    (protein_filepath protein_file_extension : string) (filepaths : list string)
    (docking_poses_file_extension : string) (affinities : list string)
    (plip_dicts : list plip_dict) (change : Change) (w : World)
    (layout : AppLayout) (pose affinity : string)
    (pre post : plip_dict) (ty : string) :
  name change = "value" ->
  new change ≠ old change ->
  layouts w !! app = Some layout ->
  source_error env (FromPath protein_filepath) = None ->
  py_index filepaths (new change) = Ok pose ->
  source_error env (FromPath pose) = None ->
  py_index affinities (new change) = Ok affinity ->
  py_index plip_dicts (new change) = Ok (pre ++ (ty, []) :: post) ->
  Forall (fun e => wf_entry e = true) pre ->
  ty ∈ interaction_types ->
  interactions_on_selection_change env app protein_filepath protein_file_extension
    filepaths docking_poses_file_extension affinities plip_dicts change w
  = (Raise IndexError,
     overlay_world w app layout
       (with_calls (pre ≫= entry_cylinders)
          (prelude_widget protein_filepath protein_file_extension pose
             docking_poses_file_extension affinity))).
Proof.
  intros Hname Hne Hlay Hprot Hpose Hsrc Haff Hdict Hwf Hty.
  rewrite (interactions_callback_loop_raises env app _ _ _ _ _ _ _ _ layout pose affinity
             pre ((ty, []) :: post) IndexError []); try done.
  - by rewrite app_nil_r.
  - intros v res w' wd' Hv. cbn [draw_interactions].
    destruct (color_map_known _ Hty) as [color Hc].
    unfold bind at 1, lift at 1. rewrite Hc.
    rewrite bool_decide_eq_false_2 by done.
    unfold bind, lift. cbn. by rewrite with_calls_nil, upd_id.
Qed.

Lemma overlay_empty_table_witness :
  (interactions_on_selection_change example_env 0 "protein.pdb" "pdb"
     example_filepaths "pdbqt" (kcal_per_mol example_affinities)
     [[("hbond", example_table); ("metal", [])]]
     {| name := "value"; new := PyInt 0; old := PyNone |}
     {| widgets := [];
        layouts := [{| left_sidebar :=
                         interactions_selector example_labels example_filepaths;
                       center := None; pane_widths := [1; 6; 1];
                       layout_height := Some "860px" |}];
        events := [] |}).1
  = Raise IndexError.
Proof.
  rewrite (overlay_empty_table example_env 0 "protein.pdb" "pdb"
             example_filepaths "pdbqt" (kcal_per_mol example_affinities)
             [[("hbond", example_table); ("metal", [])]]
             {| name := "value"; new := PyInt 0; old := PyNone |} _
             {| left_sidebar := interactions_selector example_labels example_filepaths;
                center := None; pane_widths := [1; 6; 1];
                layout_height := Some "860px" |}
             "pose_1.pdbqt" "-8 kcal/mol" [("hbond", example_table)] [] "metal").
  - reflexivity.
  - reflexivity.
  - discriminate.
  - reflexivity.
  - reflexivity.
  - reflexivity.
  - reflexivity.
  - reflexivity.
  - reflexivity.
  - repeat constructor.
  - unfold interaction_types. do 7 apply list_elem_of_further. apply list_elem_of_here.
Defined.




(** X9: a table of a known type with both coordinate columns but without
    [RESNR] is drawn in part: the cylinder of its first record is added, then
    reading the residue raises [KeyError], so no further cylinder and no
    highlight follows. *)
Theorem overlay_missing_resnr (env : Env) (app : nat)
    (protein_filepath protein_file_extension : string) (filepaths : list string)
    (docking_poses_file_extension : string) (affinities : list string)
    (plip_dicts : list plip_dict) (change : Change) (w : World)
    (layout : AppLayout) (pose affinity : string)
    (pre post : plip_dict) (ty : string) (color : list float)
    (columns row : list cell) (data : list (list cell)) :
  name change = "value" ->
  new change ≠ old change ->
  layouts w !! app = Some layout ->
  source_error env (FromPath protein_filepath) = None ->
  py_index filepaths (new change) = Ok pose ->
  source_error env (FromPath pose) = None ->
  py_index affinities (new change) = Ok affinity ->
  py_index plip_dicts (new change) = Ok (pre ++ (ty, columns :: row :: data) :: post) ->
  Forall (fun e => wf_entry e = true) pre ->
  color_map_getitem ty = Ok color ->
  Forall (fun r => length r = length columns) (row :: data) ->
  CStr "LIGCOO" ∈ columns -> CStr "PROTCOO" ∈ columns -> CStr "RESNR" ∉ columns ->
  interactions_on_selection_change env app protein_filepath protein_file_extension
    filepaths docking_poses_file_extension affinities plip_dicts change w
  = (Raise (KeyError "RESNR"),
     overlay_world w app layout
       (with_calls
          ((pre ≫= entry_cylinders)
             ++ [AddCylinder (field columns row "LIGCOO") (field columns row "PROTCOO")
                   color [0.1%float] ty])
          (prelude_widget protein_filepath protein_file_extension pose
             docking_poses_file_extension affinity))).
Proof.
  intros Hname Hne Hlay Hprot Hpose Hsrc Haff Hdict Hwf Hc Hrect Hl Hp Hr.
  apply (interactions_callback_loop_raises env app _ _ _ _ _ _ _ _ layout pose affinity
           pre ((ty, columns :: row :: data) :: post)); try done.
  intros v res w' wd' Hv. cbn [draw_interactions].
  unfold bind at 1, lift at 1. rewrite Hc.
  rewrite bool_decide_eq_false_2 by (simpl; lia).
  unfold bind at 1, lift at 1. rewrite py_index_head.
  unfold bind at 1, lift at 1. cbn [drop].
  rewrite from_records_rect by done.
  apply Forall_cons in Hrect as [Hrow _].
  unfold bind at 1. cbn [draw_rows].
  unfold bind at 1, lift at 1. rewrite (row_getitem_ok _ _ _ Hl Hrow).
  unfold bind at 1, lift at 1. rewrite (row_getitem_ok _ _ _ Hp Hrow).
  unfold bind at 1. rewrite (call_at _ _ _ _ Hv).
  unfold bind at 1, lift at 1. by rewrite (row_getitem_missing _ _ _ Hr).
Qed.

Lemma overlay_missing_resnr_witness :
  (interactions_on_selection_change example_env 0 "protein.pdb" "pdb"
     example_filepaths "pdbqt" (kcal_per_mol example_affinities)
     [[("hbond", [[CStr "LIGCOO"; CStr "PROTCOO"];
                  [CObj "(1.0, 2.0, 3.0)"; CObj "(4.0, 5.0, 6.0)"]])]]
     {| name := "value"; new := PyInt 0; old := PyNone |}
     {| widgets := [];
        layouts := [{| left_sidebar :=
                         interactions_selector example_labels example_filepaths;
                       center := None; pane_widths := [1; 6; 1];
                       layout_height := Some "860px" |}];
        events := [] |}).1
  = Raise (KeyError "RESNR").
Proof.
  rewrite (overlay_missing_resnr example_env 0 "protein.pdb" "pdb"
             example_filepaths "pdbqt" (kcal_per_mol example_affinities)
             [[("hbond", [[CStr "LIGCOO"; CStr "PROTCOO"];
                          [CObj "(1.0, 2.0, 3.0)"; CObj "(4.0, 5.0, 6.0)"]])]]
             {| name := "value"; new := PyInt 0; old := PyNone |} _
             {| left_sidebar := interactions_selector example_labels example_filepaths;
                center := None; pane_widths := [1; 6; 1];
                layout_height := Some "860px" |}
             "pose_1.pdbqt" "-8 kcal/mol" [] [] "hbond"
             [0.26; 0.83; 0.96]%float
             [CStr "LIGCOO"; CStr "PROTCOO"]
             [CObj "(1.0, 2.0, 3.0)"; CObj "(4.0, 5.0, 6.0)"] []).
  - reflexivity.
  - reflexivity.
  - discriminate.
  - reflexivity.
  - reflexivity.
  - reflexivity.
  - reflexivity.
  - reflexivity.
  - reflexivity.
  - constructor.
  - reflexivity.
  - repeat constructor.
  - apply list_elem_of_here.
  - apply list_elem_of_further, list_elem_of_here.
  - intros Hin. repeat (apply elem_of_cons in Hin as [Heq | Hin]; [discriminate Heq |]).
    by apply not_elem_of_nil in Hin.
Defined.

(** X10: when the selected pose has no interaction records (the
    dictionary is empty, or each of its tables holds the column labels
    only), the observer draws no cylinder and still makes both highlight
    calls on the protein, with the empty selection string. *)
Theorem overlay_without_records (env : Env) (app : nat)
    (protein_filepath protein_file_extension : string) (filepaths : list string)
    (docking_poses_file_extension : string) (affinities : list string)
    (plip_dicts : list plip_dict) (change : Change) (w : World)
    (layout : AppLayout) (pose affinity : string) (interactions : plip_dict) :
  name change = "value" ->
  new change ≠ old change ->
  layouts w !! app = Some layout ->
  source_error env (FromPath protein_filepath) = None ->
  py_index filepaths (new change) = Ok pose ->
  source_error env (FromPath pose) = None ->
  py_index affinities (new change) = Ok affinity ->
  py_index plip_dicts (new change) = Ok interactions ->
  Forall (fun e => (e.1 ∈ interaction_types) ∧ length e.2 = 1%nat) interactions ->
  interactions_on_selection_change env app protein_filepath protein_file_extension
    filepaths docking_poses_file_extension affinities plip_dicts change w
  = (Ok tt,
     overlay_world w app layout
       (with_calls
          [AddBallAndStick 0 "" "chainindex" 1.5%float;
           AddBallAndStick 0 "" "element" 1.5%float]
          (prelude_widget protein_filepath protein_file_extension pose
             docking_poses_file_extension affinity))).
Proof.
  intros Hname Hne Hlay Hprot Hpose Hsrc Haff Hdict Hall.
  assert (Hwf : Forall (fun e => wf_entry e = true) interactions
                ∧ interactions ≫= entry_cylinders = []
                ∧ interactions ≫= entry_residues = []).
  { clear Hdict. induction Hall as [| [ty t] l [Hty Hlen] Hall (IH1 & IH2 & IH3)];
      [done |].
    cbn [fst snd] in Hty, Hlen.
    destruct t as [| columns [| r t]]; try discriminate Hlen.
    destruct (color_map_known _ Hty) as [color Hc].
    unfold color_map_getitem in Hc.
    destruct (assoc ty color_map) as [c |] eqn:Hassoc; [| discriminate Hc].
    split; [| split].
    - constructor; [| done]. unfold wf_entry; cbn [fst snd]. by rewrite Hassoc.
    - cbn [mbind list_bind]. rewrite IH2.
      unfold entry_cylinders, color_map_getitem; cbn [fst snd]. by rewrite Hassoc.
    - cbn [mbind list_bind]. by rewrite IH3. }
  destruct Hwf as (Hwf & Hcyl & Hres).
  rewrite (interactions_callback_prelude _ _ _ _ _ _ _ _ _ _ layout pose affinity
             interactions) by (done || by apply is_new_value_true).
  unfold bind at 1.
  rewrite (draw_interactions_wf _ _ _ _ _ (overlay_lookup _ _ _ _) Hwf).
  rewrite upd_overlay, Hcyl, Hres, with_calls_nil. cbn [Datatypes.app].
  unfold bind at 1. rewrite (call_at _ _ _ _ (overlay_lookup _ _ _ _)).
  rewrite upd_overlay.
  rewrite (call_at _ _ _ _ (overlay_lookup _ _ _ _)).
  rewrite upd_overlay.
  by rewrite !log_call_with_calls, !with_calls_app.
Qed.

Lemma overlay_without_records_witness :
  (interactions_on_selection_change example_env 0 "protein.pdb" "pdb"
     example_filepaths "pdbqt" (kcal_per_mol example_affinities)
     [[("metal", [[CStr "RESNR"]])]]
     {| name := "value"; new := PyInt 0; old := PyNone |}
     {| widgets := [];
        layouts := [{| left_sidebar :=
                         interactions_selector example_labels example_filepaths;
                       center := None; pane_widths := [1; 6; 1];
                       layout_height := Some "860px" |}];
        events := [] |}).1
  = Ok tt.
Proof.
  rewrite (overlay_without_records example_env 0 "protein.pdb" "pdb"
             example_filepaths "pdbqt" (kcal_per_mol example_affinities)
             [[("metal", [[CStr "RESNR"]])]]
             {| name := "value"; new := PyInt 0; old := PyNone |} _
             {| left_sidebar := interactions_selector example_labels example_filepaths;
                center := None; pane_widths := [1; 6; 1];
                layout_height := Some "860px" |}
             "pose_1.pdbqt" "-8 kcal/mol" [("metal", [[CStr "RESNR"]])]).
  - reflexivity.
  - reflexivity.
  - discriminate.
  - reflexivity.
  - reflexivity.
  - reflexivity.
  - reflexivity.
  - reflexivity.
  - reflexivity.
  - constructor; [| constructor]. split; [| reflexivity].
    unfold interaction_types. do 7 apply list_elem_of_further. apply list_elem_of_here.
Defined.

(** ** [interactions]: the view as it is built *)

(** The events of the colour legend: one image per entry of the colour
    table, in its order, and the display of the figure. *)
Definition legend_events : list Event :=
  ((fun '(interaction, color) => Imshow interaction color) <$> color_map) ++ [PltShow].

Lemma show_color_map_run w :
  show_color_map w
  = (Ok tt, {| widgets := widgets w; layouts := layouts w;
               events := events w ++ legend_events |}).
Proof.
  unfold show_color_map, legend_events, bind, lift, emit, log_event; simpl.
  by rewrite <- !app_assoc.
Qed.

Lemma interactions_callback_wf (env : Env) (app : nat)
    (protein_filepath protein_file_extension : string) (filepaths : list string)
    (docking_poses_file_extension : string) (affinities : list string)
    (plip_dicts : list plip_dict) (change : Change) (w : World)
    (layout : AppLayout) (pose affinity : string) (interactions : plip_dict) :
  is_new_value change = true ->
  layouts w !! app = Some layout ->
  source_error env (FromPath protein_filepath) = None ->
  py_index filepaths (new change) = Ok pose ->
  source_error env (FromPath pose) = None ->
  py_index affinities (new change) = Ok affinity ->
  py_index plip_dicts (new change) = Ok interactions ->
  Forall (fun e => wf_entry e = true) interactions ->
  interactions_on_selection_change env app protein_filepath protein_file_extension
    filepaths docking_poses_file_extension affinities plip_dicts change w
  = (Ok tt,
     overlay_world w app layout
       (with_calls
          ((interactions ≫= entry_cylinders)
             ++ highlight_calls (interactions ≫= entry_residues))
          (prelude_widget protein_filepath protein_file_extension pose
             docking_poses_file_extension affinity))).
Proof.
  intros Hg Hlay Hprot Hpose Hsrc Haff Hdict Hwf.
  rewrite (interactions_callback_prelude _ _ _ _ _ _ _ _ _ _ layout pose affinity
             interactions) by done.
  unfold bind at 1.
  rewrite (draw_interactions_wf _ _ _ _ _ (overlay_lookup _ _ _ _) Hwf).
  rewrite upd_overlay. cbn [Datatypes.app].
  unfold bind at 1. rewrite (call_at _ _ _ _ (overlay_lookup _ _ _ _)).
  rewrite upd_overlay.
  rewrite (call_at _ _ _ _ (overlay_lookup _ _ _ _)).
  rewrite upd_overlay.
  by rewrite !log_call_with_calls, !with_calls_app.
Qed.

(** X11: when the protein and the first pose load and the first pose's
    interaction tables are well formed, [interactions] shows the colour
    legend, creates the layout with the selection list and the registered
    observer, and returns it with a new viewer in its center that shows the
    first pose, labelled with the first affinity followed by [" kcal/mol"],
    with the first pose's cylinders and highlights. *)
Theorem interactions_builds_view {A} `{Str A} (env : Env)
    (protein_filepath protein_file_extension : string)
    (pose : string) (more_filepaths : list string)
    (docking_poses_file_extension : string) (labels : list string)
    (affinity : A) (more_affinities : list A)
    (interactions0 : plip_dict) (more_dicts : list plip_dict) (w : World) :
  source_error env (FromPath protein_filepath) = None ->
  source_error env (FromPath pose) = None ->
  Forall (fun e => wf_entry e = true) interactions0 ->
  interactions env protein_filepath protein_file_extension (pose :: more_filepaths)
    docking_poses_file_extension labels (affinity :: more_affinities)
    (interactions0 :: more_dicts) w
  = (Ok (length (layouts w)),
     {| widgets := widgets w ++
          [with_calls
             ((interactions0 ≫= entry_cylinders)
                ++ highlight_calls (interactions0 ≫= entry_residues))
             (prelude_widget protein_filepath protein_file_extension pose
                docking_poses_file_extension (str affinity +:+ " kcal/mol"))];
        layouts := layouts w ++
          [{| left_sidebar :=
                add_observer
                  (InteractionsObserver (length (layouts w)) protein_filepath
                     protein_file_extension (pose :: more_filepaths)
                     docking_poses_file_extension
                     (kcal_per_mol (affinity :: more_affinities))
                     (interactions0 :: more_dicts))
                  (interactions_selector labels (pose :: more_filepaths));
              center := Some (length (widgets w));
              pane_widths := [1; 6; 1];
              layout_height := Some "860px" |}];
        events := events w ++ legend_events ++ [Sleep 1; Sleep 1] |}).
Proof.
  intros Hprot Hpose Hwf. unfold interactions.
  unfold bind at 1, new_layout at 1. norm_world.
  unfold bind at 1. rewrite show_color_map_run. norm_world.
  unfold bind at 1, observe at 1, on_layout at 1. norm_world.
  rewrite !lookup_total_snoc.
  cbn [set_left_sidebar left_sidebar center pane_widths layout_height].
  unfold bind at 1.
  erewrite (interactions_callback_wf env _ _ _ _ _ _ _ _ _ _ pose
              (str affinity +:+ " kcal/mol") interactions0);
    [| reflexivity | apply lookup_snoc | done | apply py_index_head | done
     | apply py_index_head | apply py_index_head | done].
  unfold ret, overlay_world, close_center;
    cbn [widgets layouts events center set_center left_sidebar pane_widths
         layout_height].
  by rewrite insert_snoc, <- !app_assoc.
Qed.

Lemma interactions_builds_view_witness :
  (interactions example_env "protein.pdb" "pdb" example_filepaths "pdbqt"
     example_labels example_affinities example_dicts empty_world).1 = Ok 0%nat.
Proof.
  exact (f_equal fst
           (interactions_builds_view example_env "protein.pdb" "pdb"
              "pose_1.pdbqt" ["pose_2.pdbqt"] "pdbqt" example_labels
              (-8) [-7] [("hbond", example_table); ("metal", [[CStr "RESNR"]])]
              [[("hydrophobic", example_table)]] empty_world
              eq_refl eq_refl ltac:(repeat constructor))).
Defined.

(** X12: with an empty list of poses [interactions] does not return.  The
    legend is shown and the layout created; the selection it triggers itself
    (value 0) closes nothing, installs a new viewer with the protein in
    cartoon representation, and then raises [IndexError] at
    [list_docking_poses_filepaths[0]]. *)
Theorem interactions_without_poses {A} `{Str A} (env : Env)
    (protein_filepath protein_file_extension docking_poses_file_extension : string)
    (labels : list string) (affinities : list A) (plip_dicts : list plip_dict)
    (w : World) :
  source_error env (FromPath protein_filepath) = None ->
  interactions env protein_filepath protein_file_extension []
    docking_poses_file_extension labels affinities plip_dicts w
  = (Raise IndexError,
     {| widgets := widgets w ++
          [{| kwargs := [("height", "860px"); ("default", "True"); ("gui", "True")];
              components :=
                [{| source := FromPath protein_filepath;
                    ext := Some protein_file_extension; visible := true |}];
              calls :=
                [AddComponent (FromPath protein_filepath) (Some protein_file_extension)
                   (Some false);
                 AddRepresentation (Some 0%nat) "cartoon" None];
              closed := false |}];
        layouts := layouts w ++
          [{| left_sidebar :=
                add_observer
                  (InteractionsObserver (length (layouts w)) protein_filepath
                     protein_file_extension [] docking_poses_file_extension
                     (kcal_per_mol affinities) plip_dicts)
                  (interactions_selector labels []);
              center := Some (length (widgets w));
              pane_widths := [1; 6; 1];
              layout_height := Some "860px" |}];
        events := events w ++ legend_events ++ [Sleep 1] |}).
Proof.
  intros Hprot. unfold interactions.
  unfold bind at 1, new_layout at 1. norm_world.
  unfold bind at 1. rewrite show_color_map_run. norm_world.
  unfold bind at 1, observe at 1, on_layout at 1. norm_world.
  rewrite !lookup_total_snoc.
  cbn [set_left_sidebar left_sidebar center pane_widths layout_height].
  unfold bind at 1. unfold interactions_on_selection_change.
  rewrite is_new_value_true by (reflexivity || discriminate).
  unfold bind at 1, read_layout at 1. norm_world. rewrite lookup_total_snoc.
  unfold bind at 1. rewrite close_center_run.
  unfold close_center. cbn [center]. norm_world.
  unfold bind at 1. rewrite new_widget_run. norm_world.
  unfold bind at 1, on_layout at 1. norm_world. rewrite lookup_total_snoc.
  unfold bind at 1. erewrite add_component_at by (done || solve_lookup). norm_world.
  cbn [components length log_call set_components calls kwargs closed Datatypes.app].
  step_call.
  unfold bind at 1, emit at 1. norm_world.
  unfold bind at 1, lift at 1. cbn [new py_index length].
  cbn [set_center left_sidebar center pane_widths layout_height].
  by rewrite <- !app_assoc.
Qed.

Lemma interactions_without_poses_witness :
  (interactions example_env "protein.pdb" "pdb" [] "pdbqt" example_labels
     example_affinities example_dicts empty_world).1 = Raise IndexError.
Proof.
  by rewrite (interactions_without_poses example_env "protein.pdb" "pdb" "pdbqt"
                example_labels example_affinities example_dicts empty_world eq_refl).
Defined.

(** ** [protein]: the file handle *)

(** A computation that logs no event, whatever its outcome. *)
Definition silent {A} (m : M A) : Prop := forall w, events (m w).2 = events w.

Lemma silent_ret {A} (a : A) : silent (ret a).
Proof. done. Qed.

Lemma silent_raise {A} (e : exn) : silent (raise (A := A) e).
Proof. done. Qed.

Lemma silent_bind {A B} (m : M A) (k : A -> M B) :
  silent m -> (forall a, silent (k a)) -> silent (bind m k).
Proof.
  intros Hm Hk w. unfold bind. specialize (Hm w).
  destruct (m w) as [[a | e] w1]; simpl in *; [| done].
  by rewrite Hk.
Qed.

Lemma silent_on_widget {A} v (f : NGLWidget -> outcome A * NGLWidget) :
  silent (on_widget v f).
Proof. intros w. unfold on_widget. by destruct (f _). Qed.

Lemma silent_call v c : silent (call v c).
Proof. apply silent_on_widget. Qed.

Lemma silent_new_widget args : silent (new_widget args).
Proof. done. Qed.

Lemma silent_add_component env v src extension dr :
  silent (add_component env v src extension dr).
Proof.
  unfold add_component. destruct (source_error env src);
    [apply silent_raise | apply silent_on_widget].
Qed.

Lemma silent_show_structure env src extension args dr :
  silent (show_structure env src extension args dr).
Proof.
  unfold show_structure. destruct (source_error env src); [apply silent_raise |].
  apply silent_bind; [apply silent_new_widget | intros v].
  apply silent_bind; [apply silent_add_component | intros _; apply silent_ret].
Qed.

Lemma with_open_events {A} env path mode (body : string -> M A) w :
  silent (body path) ->
  events (with_open env path mode body w).2
  = events w ++ OpenFile path mode ::
      match open_error env path with
      | Some _ => []
      | None => [CloseFile path]
      end.
Proof.
  intros Hbody. unfold with_open, bind, emit.
  destruct (open_error env path) as [e |]; [done |].
  specialize (Hbody (log_event (OpenFile path mode) w)).
  destruct (body path _) as [r w1]; simpl in *.
  by rewrite Hbody, <- app_assoc.
Qed.

Lemma bind_events {A B} (m : M A) (k : A -> M B) w :
  (forall a, silent (k a)) -> events (bind m k w).2 = events (m w).2.
Proof.
  intros Hk. unfold bind. destruct (m w) as [[a | e] w1]; [apply Hk | done].
Qed.

(** X13: [protein] leaves no file open.  With a PDB code it touches no
    file; otherwise it opens the file for reading once and, unless [open]
    itself fails, closes it again, whether the structure loads or the
    library raises; nothing else is logged. *)
Theorem protein_closes_file (env : Env) (input_type input_value : string)
    (output_image_filename : option string) (w : World) :
  events (protein env input_type input_value output_image_filename w).2
  = events w ++
      (if bool_decide (input_type = "pdb_code") then []
       else OpenFile input_value "r" ::
              match open_error env input_value with
              | Some _ => []
              | None => [CloseFile input_value]
              end).
Proof.
  unfold protein. rewrite bind_events.
  - destruct (bool_decide (input_type = "pdb_code")).
    + rewrite app_nil_r. apply silent_show_structure.
    + apply with_open_events.
      apply silent_bind; [apply silent_show_structure | intros v].
      apply silent_bind; [apply silent_call | intros _; apply silent_ret].
  - intros v.
    apply silent_bind; [apply silent_call | intros _].
    apply silent_bind; [apply silent_call | intros _].
    apply silent_bind; [| intros _; apply silent_ret].
    destruct output_image_filename; [| apply silent_ret].
    apply silent_bind; [apply silent_call | intros _].
    apply silent_bind; [apply silent_call | intros _; apply silent_call].
Qed.

(** ** [docking]: a pose that does not load *)

Lemma load_poses_fail env v extension (good : list (string * string))
    (bad label : string) (rest : list (string * string)) w wd e :
  widgets w !! v = Some wd ->
  Forall (fun p => source_error env (FromPath p.1) = None) good ->
  source_error env (FromPath bad) = Some e ->
  for_each (good ++ (bad, label) :: rest)
    (fun '(docking_pose_filepath, ligand_label) =>
       do ngl_ligand <- add_component env v (FromPath docking_pose_filepath)
                          (Some extension) None;
       add_label v ngl_ligand [str ligand_label]) w
  = (Raise e, upd v (loaded_poses extension good wd) w).
Proof.
  intros Hv Hall Hbad. revert w wd Hv.
  induction Hall as [| [path lbl] good Hp Hall IH]; intros w wd Hv.
  - cbn [Datatypes.app for_each loaded_poses foldl].
    unfold bind at 1. unfold bind at 1. unfold add_component. rewrite Hbad.
    unfold raise. by rewrite upd_id.
  - cbn [Datatypes.app for_each]. unfold bind at 1. unfold bind at 1.
    rewrite (add_component_at _ _ _ _ _ _ _ Hp Hv).
    unfold add_label. erewrite call_at by (by eapply upd_lookup).
    rewrite upd_upd.
    rewrite (IH _ _ (upd_lookup _ _ _ _ Hv)). by rewrite upd_upd.
Qed.

(** X14: when the protein and the first poses load but the next pose does
    not, [docking] raises the library's error unchanged.  The viewer then
    holds the protein and the poses loaded so far with their labels; no
    layout has been created and nothing displayed. *)
Theorem docking_pose_load_error {A} `{Str A} (env : Env)
    (protein_filepath protein_file_extension : string)
    (good : list string) (bad : string) (rest : list string)
    (docking_poses_file_extension : string) (labels : list string)
    (affinities_good : list A) (affinity : A) (affinities_rest : list A)
    (w : World) (e : exn) :
  source_error env (FromPath protein_filepath) = None ->
  Forall (fun p => source_error env (FromPath p) = None) good ->
  length good = length affinities_good ->
  source_error env (FromPath bad) = Some e ->
  docking env protein_filepath protein_file_extension (good ++ bad :: rest)
    docking_poses_file_extension labels
    (affinities_good ++ affinity :: affinities_rest) w
  = (Raise e,
     {| widgets := widgets w ++
          [docking_loaded protein_filepath protein_file_extension
             docking_poses_file_extension (zip good (kcal_per_mol affinities_good))];
        layouts := layouts w;
        events := events w ++ [Print "Docking modes"; Print "(CID - mode)"] |}).
Proof.
  intros Hprot Hgood Hlen Hbad. unfold docking.
  unfold bind at 1, emit at 1. unfold bind at 1, emit at 1.
  unfold bind at 1. rewrite new_widget_run. norm_world.
  unfold bind at 1. erewrite add_component_at by (done || solve_lookup). norm_world.
  cbn [components length log_call set_components calls kwargs closed Datatypes.app].
  unfold bind at 1.
  unfold kcal_per_mol at 1. rewrite fmap_app, fmap_cons.
  rewrite zip_with_app by (by rewrite length_fmap).
  cbn [zip_with].
  change ((fun x => str x +:+ " kcal/mol") <$> affinities_good)
    with (kcal_per_mol affinities_good).
  erewrite (load_poses_fail env _ _ (zip good (kcal_per_mol affinities_good)));
    [| solve_lookup | by apply (Forall_zip_fst (fun p => source_error env (FromPath p) = None))
     | exact Hbad].
  norm_world. by rewrite <- !app_assoc.
Qed.

Lemma docking_pose_load_error_witness :
  (docking example_env "protein.pdb" "pdb" ["pose_1.pdbqt"; "missing.ccp4"; "pose_3.pdbqt"]
     "pdbqt" example_labels [-8; -7; -6] empty_world).1
  = Raise (LibraryError "FileNotFoundError").
Proof.
  exact (f_equal fst
           (docking_pose_load_error example_env "protein.pdb" "pdb"
              ["pose_1.pdbqt"] "missing.ccp4" ["pose_3.pdbqt"] "pdbqt" example_labels
              [-8] (-7) [-6] empty_world (LibraryError "FileNotFoundError")
              eq_refl ltac:(repeat constructor) eq_refl eq_refl)).
Defined.
